(** * provider-bitbucketserver: the repository controller and its REST client

    A shallow embedding of the Go sources

    - the transport client ([Client.newRequest], [Client.do],
      [Client.handleResponse]) of package [bitbucket],
    - the resource client ([repositoryService], both revisions of
      [repository.go] that the tree holds),
    - the reconciliation engine of package [repository] ([external.Observe],
      [groupsEqual], [external.Create], [external.Update], [external.Delete]),

    followed by the properties proved about them.

    Conventions.  A Go function with effects on the remote server is a
    state transformer over a world [W]; a Go result [(v, err)] is a pair or
    a sum, as said at each definition; [nil] slices are kept apart from
    empty ones.  Calls into libraries that are not part of the repository
    (net/http, net/url, encoding/json, crossplane-runtime) are operations of
    the classes [Platform], [Unmarshaler] and [Crossplane].  The [ctx]
    argument, which the repository only hands on to net/http, and the lines
    written with [log] are left out. *)

From Stdlib Require Import ZArith String List Bool Lia Permutation DecimalString.
From stdpp Require Import base strings gmap.
Import ListNotations.

(** ** Go values *)

Module Go.

(** A slice: [nilSlice] is Go's [nil], [sliceOf l] a non-nil slice holding
    [l].  [len] and [range] do not tell [nilSlice] from [sliceOf []]. *)
Variant slice (A : Type) : Type :=
| nilSlice
| sliceOf (l : list A).
Arguments nilSlice {A}.
Arguments sliceOf {A} l.

Definition elems {A} (s : slice A) : list A :=
  match s with
  | nilSlice => []
  | sliceOf l => l
  end.

Definition len {A} (s : slice A) : nat := length (elems s).

Definition append {A} (s : slice A) (x : A) : slice A := sliceOf (elems s ++ [x]).

Definition isNil {A} (s : slice A) : bool :=
  match s with
  | nilSlice => true
  | sliceOf _ => false
  end.

(** Error values.  The first four are the package variables of
    [bitbucket] ([var ( ErrPermission = errors.New("permission") ... )]):
    each is one value, and [==] on errors is identity.  [errorString] is any
    other error without a cause (errors.New, fmt.Errorf without [%w], a
    failure reported by net/http, io or a decoder); [SyntaxError] is
    [*json.SyntaxError]; [wrapError msg err] is an error that wraps [err]
    ([fmt.Errorf("...%w", err)], [errors.Wrap]) and prints as
    [msg ++ err.Error()]. *)
Inductive error : Type :=
| ErrPermission
| ErrNotFound
| ErrResponseMalformed
| ErrConflict
| errorString (s : string)
| SyntaxError (msg : string) (Offset : Z)
| wrapError (msg : string) (err : error).

Fixpoint Error (e : error) : string :=
  match e with
  | ErrPermission => "permission"
  | ErrNotFound => "not_found"
  | ErrResponseMalformed => "response_malformed"
  | ErrConflict => "conflict"
  | errorString s => s
  | SyntaxError msg _ => msg
  | wrapError msg err => msg +:+ Error err
  end.

(** [err == target] for a [target] that is one of the package variables,
    which is what every caller in the repository passes. *)
Definition same (err target : error) : bool :=
  match err, target with
  | ErrPermission, ErrPermission => true
  | ErrNotFound, ErrNotFound => true
  | ErrResponseMalformed, ErrResponseMalformed => true
  | ErrConflict, ErrConflict => true
  | _, _ => false
  end.

(** [errors.Is]: walks the chain of wrapped errors. *)
Fixpoint errors_Is (err target : error) : bool :=
  same err target ||
  match err with
  | wrapError _ err' => errors_Is err' target
  | _ => false
  end.

(** [errors.As(err, &jsonErr)] with [jsonErr *json.SyntaxError]. *)
Fixpoint errors_As_SyntaxError (err : error) : bool :=
  match err with
  | SyntaxError _ _ => true
  | wrapError _ err' => errors_As_SyntaxError err'
  | _ => false
  end.

(** [errors.New(text)] called inside a function. *)
Definition errors_New (text : string) : error := errorString text.

(** [errors.Wrap(err, message)] of github.com/pkg/errors. *)
Definition errors_Wrap (err : error) (message : string) : error :=
  wrapError (message +:+ ": ") err.

(** [fmt.Errorf(prefix + "%w", err)]. *)
Definition fmt_Errorf_w (prefix : string) (err : error) : error :=
  wrapError prefix err.

(** [%d] of an [int]. *)
Definition itoa (n : Z) : string := NilZero.string_of_int (Z.to_int n).

(** The package variables: the classifications an error can carry. *)
Definition classifications : list error :=
  [ErrPermission; ErrNotFound; ErrResponseMalformed; ErrConflict].

End Go.
Import Go.

(** ** A state monad for calls that reach the server *)

Definition M (W A : Type) : Type := W -> A * W.

Definition ret {W A} (a : A) : M W A := fun w => (a, w).

Definition bind {W A B} (m : M W A) (k : A -> M W B) : M W B :=
  fun w => let (a, w') := m w in k a w'.

Declare Scope go_scope.
Delimit Scope go_scope with go.
Notation "x <- c ;; k" := (bind c (fun x => k))
  (at level 100, c at next level, right associativity) : go_scope.
Local Open Scope go_scope.

(** ** crossplane-runtime

    What the controller uses of crossplane-runtime: the object metadata and
    the conditioned status of a managed resource, the three conditions it
    sets (each stamped with the current time by the library), and the two
    writers. *)
Class Crossplane : Type := {
  ObjectMeta : Type;
  ResourceStatus : Type;
  Condition : Type;
  Available : Condition;
  Creating : Condition;
  Deleting : Condition;
  ResourceStatus_SetConditions : ResourceStatus -> Condition -> ResourceStatus;
  meta_SetExternalName : ObjectMeta -> string -> ObjectMeta;
}.

(** ** Package v1alpha1: the Repository custom resource *)

Module v1alpha1.

Module AdGroup.
Record t : Type := mk {
  Name : string;
  Permission : string;
}.
End AdGroup.

Module RepositoryParameters.
Record t : Type := mk {
  Name : string;
  Project : string;
  Public : bool;
  Description : string;
  Groups : slice AdGroup.t;
}.
End RepositoryParameters.

Module RepositoryObservation.
Record t : Type := mk {
  ID : Z;
}.
End RepositoryObservation.

(** [InitProvider] and the embedded [ResourceSpec] are read by no function
    of the repository. *)
Module RepositorySpec.
Record t : Type := mk {
  ForProvider : RepositoryParameters.t;
}.
End RepositorySpec.

Module RepositoryStatus.
Record t `{Crossplane} : Type := mk {
  ResourceStatus : ResourceStatus;
  AtProvider : RepositoryObservation.t;
}.
End RepositoryStatus.

Module Repository.
Record t `{Crossplane} : Type := mk {
  ObjectMeta : ObjectMeta;
  Spec : RepositorySpec.t;
  Status : RepositoryStatus.t;
}.

(** [cr.SetConditions(c)] *)
Definition SetConditions `{Crossplane} (cr : t) (c : Condition) : t :=
  mk _ (ObjectMeta cr) (Spec cr)
     (RepositoryStatus.mk _
        (ResourceStatus_SetConditions (RepositoryStatus.ResourceStatus (Status cr)) c)
        (RepositoryStatus.AtProvider (Status cr))).

(** [cr.Status.AtProvider.ID = id] *)
Definition set_Status_AtProvider_ID `{Crossplane} (cr : t) (id : Z) : t :=
  mk _ (ObjectMeta cr) (Spec cr)
     (RepositoryStatus.mk _
        (RepositoryStatus.ResourceStatus (Status cr))
        (RepositoryObservation.mk id)).

(** [meta.SetExternalName(cr, name)] *)
Definition SetExternalName `{Crossplane} (cr : t) (name : string) : t :=
  mk _ (meta_SetExternalName (ObjectMeta cr) name) (Spec cr) (Status cr).

(** [cr.Spec.ForProvider.Public = b], the one write the declarative layer
    makes that the properties below talk about. *)
Definition set_Spec_ForProvider_Public `{Crossplane} (cr : t) (b : bool) : t :=
  let p := RepositorySpec.ForProvider (Spec cr) in
  mk _ (ObjectMeta cr)
     (RepositorySpec.mk
        (RepositoryParameters.mk
           (RepositoryParameters.Name p) (RepositoryParameters.Project p) b
           (RepositoryParameters.Description p) (RepositoryParameters.Groups p)))
     (Status cr).
End Repository.

End v1alpha1.

(** ** Package bitbucket: the REST client *)

Module bitbucket.

Definition apiPath : string := "/rest/api/1.0/".
Definition jsonMediaType : string := "application/json".

(** *** Records of repository.go *)

Module Repository.
Record t : Type := mk {
  ID : Z;
  Name : string;
  Public : bool;
  Project : string;
  Description : string;
}.
End Repository.

Module Group.
Record t : Type := mk {
  Name : string;
  Permission : string;
}.
End Group.

Module repositoryJson.
Record t : Type := mk {
  ID : Z;
  Name : string;
  Project_Key : string;
  Description : string;
}.

(** [var repo repositoryJson] *)
Definition zero : t := mk 0 "" "" "".

(** [Public] is not among the fields the literal sets. *)
Definition toRepository (r : t) : Repository.t :=
  Repository.mk (ID r) (Name r) false (Project_Key r) (Description r).
End repositoryJson.

(** The anonymous struct [GetGroups] decodes into. *)
Module groupsResponse.
Module entry.
Record t : Type := mk {
  Group_Name : string;
  Permission : string;
}.
End entry.

Record t : Type := mk {
  Values : slice entry.t;
}.

(** [var response struct { ... }] *)
Definition zero : t := mk nilSlice.
End groupsResponse.

(** *** net/http, net/url, encoding/json *)

Module Request.
(** [Body] is [None] for the [nil] body of a GET and the buffer otherwise. *)
Record t : Type := mk {
  Method : string;
  URL : string;
  Body : option (list Byte.byte);
  Header : gmap string string;
}.

(** [req.Header.Set(k, v)]; the keys the client sets are in canonical
    form already. *)
Definition Header_Set (req : t) (k v : string) : t :=
  mk (Method req) (URL req) (Body req) (<[k := v]> (Header req)).
End Request.

Module Response.
(** [Body] is what [io.ReadAll(res.Body)] returns; [Request_URL] is
    [res.Request.URL]. *)
Record t : Type := mk {
  StatusCode : Z;
  Body : list Byte.byte * option error;
  Request_URL : string;
}.
End Response.

Definition io_ReadAll (body : list Byte.byte * option error) :
  list Byte.byte * option error := body.

(** The library calls of the transport.  A result [error + A] is [inl err]
    when the call fails.
    - [url_Parse base path]: [base.Parse(path)], then [u.String()];
    - [http_NewRequest_err method url]: the error of
      [http.NewRequest(method, url, body)], if any;
    - [json_Encode body]: [json.NewEncoder(buf).Encode(body)], the buffer;
    - [http_Client_Do req]: [c.client.Do(req)], the one call that reaches
      the server. *)
Class Platform (W : Type) : Type := {
  url_Parse : string -> string -> error + string;
  http_NewRequest_err : string -> string -> option error;
  json_Encode : Repository.t -> error + list Byte.byte;
  http_Client_Do : Request.t -> M W (error + Response.t);
}.

(** [json.Unmarshal(out, &v)] for a target of type [T]: the target after the
    call and the error. *)
Class Unmarshaler (T : Type) : Type :=
  json_Unmarshal : list Byte.byte -> T -> T * option error.

(** The target of a call that passes [nil] for [v]. *)
Variant noTarget : Type := .

#[global] Instance noTarget_Unmarshaler : Unmarshaler noTarget :=
  fun _ t => match t with end.

(** The variable [x] after a call that was given [&x]. *)
Definition after {T} (x : T) (stored : option T) : T :=
  match stored with
  | Some x' => x'
  | None => x
  end.

Definition http_NewRequest {W} `{Platform W} (method url : string)
    (body : option (list Byte.byte)) : error + Request.t :=
  match http_NewRequest_err method url with
  | Some err => inl err
  | None => inr (Request.mk method url body ∅)
  end.

Definition http_MethodGet : string := "GET".
Definition http_MethodPost : string := "POST".
Definition http_MethodPut : string := "PUT".
Definition http_MethodDelete : string := "DELETE".
Definition http_StatusBadRequest : Z := 400.
Definition http_StatusNoContent : Z := 204.

(** *** client.go *)

(** The [client *http.Client] field is the platform's [http_Client_Do]. *)
Record Client : Type := mkClient {
  headers : gmap string string;
  baseURL : string;
}.

Section Transport.
Context {W : Type} `{Platform W}.

Definition newRequest (c : Client) (method path : string)
    (body : option Repository.t) : error + Request.t :=
  match url_Parse (baseURL c) path with
  | inl err => inl err
  | inr u =>
    let built :=
      if String.eqb method http_MethodGet then
        http_NewRequest method u None
      else
        let encoded :=
          match body with
          | Some b => json_Encode b
          | None => inr []
          end in
        match encoded with
        | inl err => inl err
        | inr buf =>
          match http_NewRequest method u (Some buf) with
          | inl err => inl err
          | inr req => inr (Request.Header_Set req "Content-Type" jsonMediaType)
          end
        end in
    match built with
    | inl err => inl err
    | inr req =>
      let req := Request.Header_Set req "Accept" jsonMediaType in
      inr (map_fold (fun k v req => Request.Header_Set req k v) req (headers c))
    end
  end.

(** [v] is [None] for a [nil] target and [Some t] for a pointer to a
    variable holding [t].  The first component of the result is what
    [json.Unmarshal] left in that variable, and [None] when it did not
    run. *)
Definition handleResponse {T} `{Unmarshaler T} (res : Response.t) (v : option T) :
    option T * option error :=
  let (out, err) := io_ReadAll (Response.Body res) in
  match err with
  | Some err => (None, Some err)
  | None =>
    if Response.StatusCode res =? 404 then (None, Some ErrNotFound)
    else if Response.StatusCode res =? 401 then (None, Some ErrPermission)
    else if Response.StatusCode res =? 409 then (None, Some ErrConflict)
    else if Response.StatusCode res >=? http_StatusBadRequest then
      (None, Some (errorString
                     (Response.Request_URL res +:+ " returned " +:+
                      itoa (Response.StatusCode res))))
    else
      (* if v == nil || res.StatusCode == http.StatusNoContent *)
      match v with
      | None => (None, None)
      | Some t =>
        if Response.StatusCode res =? http_StatusNoContent then (None, None)
        else
          let (t', err) := json_Unmarshal out t in
          match err with
          | Some err =>
            if errors_As_SyntaxError err then (Some t', Some ErrResponseMalformed)
            else (Some t', Some err)
          | None => (Some t', None)
          end
      end
  end%Z.

(** [defer res.Body.Close()] has no effect the model keeps. *)
Definition do {T} `{Unmarshaler T} (c : Client) (req : Request.t) (v : option T) :
    M W (option T * option error) :=
  r <- http_Client_Do req ;;
  match r with
  | inl err => ret (None, Some err)
  | inr res => ret (handleResponse res v)
  end.

End Transport.

(** *** client.go: construction *)

(** [strings.TrimRight(s, cutset)] for a cutset of one-byte characters: the
    longest prefix of [s] that does not end in a character of [cutset]. *)
Fixpoint inCutset (c : Ascii.ascii) (cutset : string) : bool :=
  match cutset with
  | EmptyString => false
  | String c' cutset => Ascii.eqb c c' || inCutset c cutset
  end.

Fixpoint strings_TrimRight (s cutset : string) : string :=
  match s with
  | EmptyString => EmptyString
  | String c s =>
    match strings_TrimRight s cutset with
    | EmptyString => if inCutset c cutset then EmptyString else String c EmptyString
    | kept => String c kept
    end
  end.

(** The end of a line written by [fmt.Println] or a format ending in a
    newline. *)
Definition newline : string := String (Ascii.ascii_of_nat 10) EmptyString.

(** What construction asks of the host: crypto/x509, os and the
    package-level [url.Parse].
    - [x509_SystemCertPool]: the pool of [x509.SystemCertPool()], [None]
      for nil;
    - [CertPool_AppendCertsFromPEM pool certs]: the pool after
      [pool.AppendCertsFromPEM(certs)], and its [ok];
    - [os_Stat_IsNotExist path]: [os.IsNotExist(err)] for the [err] of
      [os.Stat(path)];
    - [net_url_Parse raw]: [url.Parse(raw)], then [String()]. *)
Class Host : Type := {
  CertPool : Type;
  x509_SystemCertPool : option CertPool;
  x509_NewCertPool : CertPool;
  CertPool_AppendCertsFromPEM : CertPool -> list Byte.byte -> CertPool * bool;
  os_Stat_IsNotExist : string -> bool;
  os_ReadFile : string -> list Byte.byte * option error;
  net_url_Parse : string -> error + string;
}.

(** [&http.Transport{TLSClientConfig: &tls.Config{RootCAs: rootCAs}}] *)
Record Transport `{Host} : Type := mkTransport {
  TLSClientConfig_RootCAs : CertPool;
}.

(** The transport, and the lines written to standard output on the way.
    [caCertPath] is [None] for a nil pointer. *)
Definition createTransport `{Host} (caCertPath : option string) : Transport * list string :=
  let rootCAs :=
    match x509_SystemCertPool with
    | Some pool => pool
    | None => x509_NewCertPool
    end in
  match caCertPath with
  | None => (mkTransport _ rootCAs, [])
  | Some path =>
    if String.eqb path "" then (mkTransport _ rootCAs, [])
    else if negb (os_Stat_IsNotExist path) then
      let (certs, err) := os_ReadFile path in
      let failed :=
        match err with
        | Some err => ["Failed to read " +:+ path +:+ ": " +:+ Error err +:+ newline]
        | None => []
        end in
      let (rootCAs, ok) := CertPool_AppendCertsFromPEM rootCAs certs in
      let unused :=
        if negb ok then ["No certs appended, using system certs only" +:+ newline]
        else [] in
      (mkTransport _ rootCAs, failed ++ unused)
    else (mkTransport _ rootCAs, ["'" +:+ path +:+ "' does not exist" +:+ newline])
  end.

Section Construction.
Context {W : Type} `{Platform W} `{Host}.

Definition ping (c : Client) : M W (option error) :=
  match newRequest c "GET" "projects" None with
  | inl err =>
    ret (Some (fmt_Errorf_w "error creating request for getting projects: " err))
  | inr req =>
    r <- do c req (@None noTarget) ;;
    match snd r with
    | Some err =>
      ret (Some (fmt_Errorf_w
                   ("error fetching projects at " +:+ Request.URL req +:+ ": ") err))
    | None => ret None
    end
  end.

(** The client or the error, and the lines [createTransport] wrote.  The
    transport and the ten-second timeout configure [c.client], whose [Do]
    is the platform's [http_Client_Do]. *)
Definition NewClient (baseURL base64creds : string) (caCertPath : option string) :
    M W ((error + Client) * list string) :=
  let baseURL := strings_TrimRight baseURL "/" in
  match net_url_Parse (baseURL +:+ apiPath) with
  | inl err => ret (inl err, [])
  | inr pBaseURL =>
    let (transport, written) := createTransport caCertPath in
    let c := mkClient {["Authorization" := "Bearer " +:+ base64creds]} pBaseURL in
    err <- ping c ;;
    match err with
    | Some err => ret (inl (fmt_Errorf_w "error creating bitbucket client: " err), written)
    | None => ret (inr c, written)
    end
  end.

End Construction.

(** *** repository.go: the interface *)

(** [Get], [Create] and [Update] return a [*Repository] and an [error],
    exactly one of the two non-nil: a sum.  [GetGroups] returns a [[]Group]
    and an [error], and one caller reads the slice without looking at the
    error: a pair. *)
Module RepositoryService.
Record t (W : Type) : Type := mk {
  Get : Repository.t -> M W (error + Repository.t);
  Create : Repository.t -> M W (error + Repository.t);
  Update : Repository.t -> M W (error + Repository.t);
  Delete : Repository.t -> M W (option error);
  GetGroups : Repository.t -> M W (slice Group.t * option error);
  AddGroup : Repository.t -> Group.t -> M W (option error);
  RevokeGroup : Repository.t -> Group.t -> M W (option error);
}.
Arguments mk {W}.
Arguments Get {W}.
Arguments Create {W}.
Arguments Update {W}.
Arguments Delete {W}.
Arguments GetGroups {W}.
Arguments AddGroup {W}.
Arguments RevokeGroup {W}.
End RepositoryService.

(** *** repository.go: the implementation over the transport *)

Module repositoryService.
Record t : Type := mk {
  client : Client;
}.

Section Methods.
Context {W : Type} `{Platform W}.
Context `{Unmarshaler repositoryJson.t} `{Unmarshaler groupsResponse.t}.

Definition Get (service : t) (repository : Repository.t) : M W (error + Repository.t) :=
  match newRequest (client service) http_MethodGet
          ("projects/" +:+ Repository.Project repository +:+ "/repos/" +:+
           Repository.Name repository) None with
  | inl err =>
    ret (inl (fmt_Errorf_w "error creating request for getting repository: " err))
  | inr req =>
    let repo := repositoryJson.zero in
    r <- do (client service) req (Some repo) ;;
    let (stored, err) := r in
    let repo := after repo stored in
    match err with
    | Some err => ret (inl (fmt_Errorf_w "error fetching repository: " err))
    | None => ret (inr (repositoryJson.toRepository repo))
    end
  end.

Definition Create (service : t) (repository : Repository.t) : M W (error + Repository.t) :=
  match newRequest (client service) http_MethodPost
          ("projects/" +:+ Repository.Project repository +:+ "/repos")
          (Some repository) with
  | inl err =>
    ret (inl (fmt_Errorf_w "error creating request for creating repository: " err))
  | inr req =>
    let repo := repositoryJson.zero in
    r <- do (client service) req (Some repo) ;;
    let (stored, err) := r in
    let repo := after repo stored in
    match err with
    | Some err => ret (inl (fmt_Errorf_w "error creating repository: " err))
    | None => ret (inr (repositoryJson.toRepository repo))
    end
  end.

Definition Update (service : t) (repository : Repository.t) : M W (error + Repository.t) :=
  match newRequest (client service) http_MethodPut
          ("projects/" +:+ Repository.Project repository +:+ "/repos/" +:+
           Repository.Name repository) (Some repository) with
  | inl err =>
    ret (inl (fmt_Errorf_w "error updating request for creating repository: " err))
  | inr req =>
    let repo := repositoryJson.zero in
    r <- do (client service) req (Some repo) ;;
    let (stored, err) := r in
    let repo := after repo stored in
    match err with
    | Some err => ret (inl (fmt_Errorf_w "error updating repository: " err))
    | None => ret (inr (repositoryJson.toRepository repo))
    end
  end.

Definition Delete (service : t) (repository : Repository.t) : M W (option error) :=
  match newRequest (client service) http_MethodDelete
          ("projects/" +:+ Repository.Project repository +:+ "/repos/" +:+
           Repository.Name repository) None with
  | inl err =>
    ret (Some (fmt_Errorf_w "error creating request for deleting repository: " err))
  | inr req =>
    r <- do (client service) req (@None noTarget) ;;
    match snd r with
    | Some err => ret (Some (fmt_Errorf_w "error deleting repository: " err))
    | None => ret None
    end
  end.

(** [for _, entry := range response.Values { groups = append(groups, ...) }] *)
Definition GetGroups_loop (Values : list groupsResponse.entry.t)
    (groups : slice Group.t) : slice Group.t :=
  fold_left
    (fun groups entry =>
       append groups (Group.mk (groupsResponse.entry.Group_Name entry)
                               (groupsResponse.entry.Permission entry)))
    Values groups.

Definition GetGroups (service : t) (repository : Repository.t) :
    M W (slice Group.t * option error) :=
  let url := "projects/" +:+ Repository.Project repository +:+ "/repos/" +:+
             Repository.Name repository +:+ "/permissions/groups" in
  match newRequest (client service) http_MethodGet url None with
  | inl err =>
    ret (nilSlice,
         Some (fmt_Errorf_w "error creating request for getting repository groups: " err))
  | inr req =>
    let response := groupsResponse.zero in
    r <- do (client service) req (Some response) ;;
    let (stored, err) := r in
    let response := after response stored in
    match err with
    | Some err =>
      ret (nilSlice, Some (fmt_Errorf_w "error getting repository group: " err))
    | None =>
      let groups := sliceOf [] in
      ret (GetGroups_loop (elems (groupsResponse.Values response)) groups, None)
    end
  end.

Definition AddGroup (service : t) (repository : Repository.t) (group : Group.t) :
    M W (option error) :=
  let url := "projects/" +:+ Repository.Project repository +:+ "/repos/" +:+
             Repository.Name repository +:+ "/permissions/groups?name=" +:+
             Group.Name group +:+ "&permission=" +:+ Group.Permission group in
  match newRequest (client service) http_MethodPut url None with
  | inl err =>
    ret (Some (fmt_Errorf_w "error creating request for adding repository group: " err))
  | inr req =>
    r <- do (client service) req (@None noTarget) ;;
    match snd r with
    | Some err => ret (Some (fmt_Errorf_w "error adding repository group: " err))
    | None => ret None
    end
  end.

Definition RevokeGroup (service : t) (repository : Repository.t) (group : Group.t) :
    M W (option error) :=
  let url := "projects/" +:+ Repository.Project repository +:+ "/repos/" +:+
             Repository.Name repository +:+ "/permissions/groups?name=" +:+
             Group.Name group in
  match newRequest (client service) http_MethodDelete url None with
  | inl err =>
    ret (Some (fmt_Errorf_w "error creating request for revoking repository group: " err))
  | inr req =>
    r <- do (client service) req (@None noTarget) ;;
    match snd r with
    | Some err => ret (Some (fmt_Errorf_w "error revoking repository group: " err))
    | None => ret None
    end
  end.

(** [&repositoryService{client: client}] seen through the interface. *)
Definition asInterface (service : t) : RepositoryService.t W :=
  RepositoryService.mk (Get service) (Create service) (Update service)
    (Delete service) (GetGroups service) (AddGroup service) (RevokeGroup service).

End Methods.
End repositoryService.

(** *** service.go *)

(** [Projects] is used by no function of the repository controller. *)
Record BitBucketService (W : Type) : Type := mkBitBucketService {
  Repositories : RepositoryService.t W;
}.
Arguments mkBitBucketService {W}.
Arguments Repositories {W}.

Definition NewService {W} `{Platform W}
    `{Unmarshaler repositoryJson.t} `{Unmarshaler groupsResponse.t}
    (client : Client) : BitBucketService W :=
  mkBitBucketService (repositoryService.asInterface (repositoryService.mk client)).

End bitbucket.

(** ** src/internal/bitbucket/repository.go

    The other revision of repository.go in the tree.  Its [Repository] has
    no [Public] field and its service no group operations; [Get], [Create]
    and [Update] read as above.  It shares client.go. *)

Module internal_bitbucket.

Module Repository.
Record t : Type := mk {
  ID : Z;
  Name : string;
  Project : string;
  Description : string;
}.
End Repository.

Module repositoryService.
Record t : Type := mk {
  client : bitbucket.Client;
}.

Section Methods.
Context {W : Type} `{bitbucket.Platform W}.

Definition Delete (service : t) (repository : Repository.t) : M W (option error) :=
  match bitbucket.newRequest (client service) "PUT"
          ("projects/" +:+ Repository.Project repository +:+ "/repos/" +:+
           Repository.Name repository) None with
  | inl err =>
    ret (Some (fmt_Errorf_w "error creating request for deleting repository: " err))
  | inr req =>
    r <- bitbucket.do (client service) req (@None bitbucket.noTarget) ;;
    match snd r with
    | Some err => ret (Some (fmt_Errorf_w "error deleting repository: " err))
    | None => ret None
    end
  end.

End Methods.
End repositoryService.

End internal_bitbucket.

(** ** crossplane-runtime: package managed and resource.Managed *)

Module managed.

Definition ConnectionDetails : Type := gmap string (list Byte.byte).

(** [ResourceLateInitialized] and [Diff] are set by no function of the
    repository.  [ConnectionDetails] is [None] when the literal leaves the
    field out and [Some ∅] for [managed.ConnectionDetails{}]. *)
Module ExternalObservation.
Record t : Type := mk {
  ResourceExists : bool;
  ResourceUpToDate : bool;
  ConnectionDetails : option ConnectionDetails;
}.

(** [managed.ExternalObservation{}] *)
Definition zero : t := mk false false None.
End ExternalObservation.

Module ExternalCreation.
Record t : Type := mk {
  ConnectionDetails : option ConnectionDetails;
}.
Definition zero : t := mk None.
End ExternalCreation.

Module ExternalUpdate.
Record t : Type := mk {
  ConnectionDetails : option ConnectionDetails;
}.
Definition zero : t := mk None.
End ExternalUpdate.

End managed.

Module resource.
(** A [resource.Managed] is a [*v1alpha1.Repository] or a value of another
    type, for which the type assertion of the controller fails. *)
Variant Managed `{Crossplane} : Type :=
| aRepository (cr : v1alpha1.Repository.t)
| anotherKind.
End resource.

(** ** Package repository: the controller *)

Module repository.
Import bitbucket managed resource.

Definition errNotRepository : string :=
  "managed resource is not a Repository custom resource".

Record external (W : Type) : Type := mkExternal {
  service : BitBucketService W;
}.
Arguments mkExternal {W}.
Arguments service {W}.

(** The inner loop of [groupsEqual]: the value of [found] when it ends. *)
Fixpoint groupsEqual_found (crGroup : v1alpha1.AdGroup.t) (groups : list Group.t) : bool :=
  match groups with
  | [] => false
  | group :: groups =>
    if String.eqb (v1alpha1.AdGroup.Name crGroup) (Group.Name group) &&
       String.eqb (v1alpha1.AdGroup.Permission crGroup) (Group.Permission group)
    then true
    else groupsEqual_found crGroup groups
  end.

(** The outer loop of [groupsEqual] and the [return true] after it. *)
Fixpoint groupsEqual_loop (crGroups : list v1alpha1.AdGroup.t) (groups : list Group.t) : bool :=
  match crGroups with
  | [] => true
  | crGroup :: crGroups =>
    let found := groupsEqual_found crGroup groups in
    if negb found then false else groupsEqual_loop crGroups groups
  end.

Definition groupsEqual (crGroups : slice v1alpha1.AdGroup.t) (groups : slice Group.t) : bool :=
  if negb (Nat.eqb (len crGroups) (len groups)) then false
  else groupsEqual_loop (elems crGroups) (elems groups).

Section Controller.
Context `{Crossplane} {W : Type}.

Local Abbreviation ForProvider cr :=
  (v1alpha1.RepositorySpec.ForProvider (v1alpha1.Repository.Spec cr)).

(** The operations return what the Go method returns, paired with the
    managed resource as the method leaves it. *)

Definition Observe (c : external W) (mg : Managed) :
    M W ((ExternalObservation.t * option error) * Managed) :=
  match mg with
  | anotherKind =>
    ret ((ExternalObservation.zero, Some (errors_New errNotRepository)), mg)
  | aRepository cr =>
    let repoName := v1alpha1.RepositoryParameters.Name (ForProvider cr) in
    let projectName := v1alpha1.RepositoryParameters.Project (ForProvider cr) in
    r <- RepositoryService.Get (Repositories (service c))
           (Repository.mk 0 repoName false projectName "") ;;
    match r with
    | inl err =>
      if errors_Is err ErrNotFound then
        ret ((ExternalObservation.mk false false None, None), aRepository cr)
      else
        ret ((ExternalObservation.zero,
              Some (errors_Wrap err "error fetching Bitbucket repository")),
             aRepository cr)
    | inr repository =>
      let cr := v1alpha1.Repository.SetConditions cr Available in
      let cr := v1alpha1.Repository.set_Status_AtProvider_ID cr (Repository.ID repository) in
      if negb (String.eqb (Repository.Description repository)
                 (v1alpha1.RepositoryParameters.Description (ForProvider cr)))
      then ret ((ExternalObservation.mk true false None, None), aRepository cr)
      else
        r <- RepositoryService.GetGroups (Repositories (service c)) repository ;;
        let (groups, err) := r in
        if negb (groupsEqual (v1alpha1.RepositoryParameters.Groups (ForProvider cr)) groups)
        then ret ((ExternalObservation.mk true false None, None), aRepository cr)
        else ret ((ExternalObservation.mk true true (Some ∅), None), aRepository cr)
    end
  end.

(** [repoToCreate] of [Create] and [repoToUpdate] of [Update]: the same
    literal, which sets neither [ID] nor [Public]. *)
Definition repoToCreate (cr : v1alpha1.Repository.t) : Repository.t :=
  Repository.mk 0
    (v1alpha1.RepositoryParameters.Name (ForProvider cr))
    false
    (v1alpha1.RepositoryParameters.Project (ForProvider cr))
    (v1alpha1.RepositoryParameters.Description (ForProvider cr)).

Definition repoToUpdate (cr : v1alpha1.Repository.t) : Repository.t :=
  Repository.mk 0
    (v1alpha1.RepositoryParameters.Name (ForProvider cr))
    false
    (v1alpha1.RepositoryParameters.Project (ForProvider cr))
    (v1alpha1.RepositoryParameters.Description (ForProvider cr)).

(** [for _, g := range cr.Spec.ForProvider.Groups] of [Create]: the error it
    returns with, [None] when it runs to its end. *)
Fixpoint Create_loop (c : external W) (repository : Repository.t)
    (Groups : list v1alpha1.AdGroup.t) : M W (option error) :=
  match Groups with
  | [] => ret None
  | g :: Groups =>
    let group := Group.mk (v1alpha1.AdGroup.Name g) (v1alpha1.AdGroup.Permission g) in
    err <- RepositoryService.AddGroup (Repositories (service c)) repository group ;;
    match err with
    | Some err => ret (Some err)
    | None => Create_loop c repository Groups
    end
  end.

Definition Create (c : external W) (mg : Managed) :
    M W ((ExternalCreation.t * option error) * Managed) :=
  match mg with
  | anotherKind =>
    ret ((ExternalCreation.zero, Some (errors_New errNotRepository)), mg)
  | aRepository cr =>
    let cr := v1alpha1.Repository.SetConditions cr Creating in
    r <- RepositoryService.Create (Repositories (service c)) (repoToCreate cr) ;;
    match r with
    | inl err => ret ((ExternalCreation.zero, Some err), aRepository cr)
    | inr repository =>
      err <- Create_loop c repository
               (elems (v1alpha1.RepositoryParameters.Groups (ForProvider cr))) ;;
      match err with
      | Some err => ret ((ExternalCreation.zero, Some err), aRepository cr)
      | None =>
        let cr := v1alpha1.Repository.SetExternalName cr (Repository.Name repository) in
        ret ((ExternalCreation.mk (Some ∅), None), aRepository cr)
      end
    end
  end.

(** "Update all groups" *)
Fixpoint Update_loop (c : external W) (repo : Repository.t)
    (Groups : list v1alpha1.AdGroup.t) : M W (option error) :=
  match Groups with
  | [] => ret None
  | group :: Groups =>
    err <- RepositoryService.AddGroup (Repositories (service c)) repo
             (Group.mk (v1alpha1.AdGroup.Name group) (v1alpha1.AdGroup.Permission group)) ;;
    match err with
    | Some err => ret (Some err)
    | None => Update_loop c repo Groups
    end
  end.

(** The inner loop of "Delete unknown groups": the value of [found]. *)
Fixpoint Update_found (group : Group.t) (Groups : list v1alpha1.AdGroup.t) : bool :=
  match Groups with
  | [] => false
  | crGroup :: Groups =>
    if String.eqb (Group.Name group) (v1alpha1.AdGroup.Name crGroup) then true
    else Update_found group Groups
  end.

(** "Delete unknown groups" *)
Fixpoint Update_delete_loop (c : external W) (repo : Repository.t)
    (Groups : list v1alpha1.AdGroup.t) (groups : list Group.t) : M W (option error) :=
  match groups with
  | [] => ret None
  | group :: groups =>
    let found := Update_found group Groups in
    if negb found then
      err <- RepositoryService.RevokeGroup (Repositories (service c)) repo group ;;
      match err with
      | Some err => ret (Some err)
      | None => Update_delete_loop c repo Groups groups
      end
    else Update_delete_loop c repo Groups groups
  end.

Definition Update (c : external W) (mg : Managed) :
    M W ((ExternalUpdate.t * option error) * Managed) :=
  match mg with
  | anotherKind =>
    ret ((ExternalUpdate.zero, Some (errors_New errNotRepository)), mg)
  | aRepository cr =>
    r <- RepositoryService.Update (Repositories (service c)) (repoToUpdate cr) ;;
    match r with
    | inl err => ret ((ExternalUpdate.zero, Some err), mg)
    | inr repo =>
      r <- RepositoryService.GetGroups (Repositories (service c)) repo ;;
      let (groups, err) := r in
      match err with
      | Some err => ret ((ExternalUpdate.zero, Some err), mg)
      | None =>
        let Groups := elems (v1alpha1.RepositoryParameters.Groups (ForProvider cr)) in
        err <- Update_loop c repo Groups ;;
        match err with
        | Some err => ret ((ExternalUpdate.zero, Some err), mg)
        | None =>
          err <- Update_delete_loop c repo Groups (elems groups) ;;
          match err with
          | Some err => ret ((ExternalUpdate.zero, Some err), mg)
          | None => ret ((ExternalUpdate.mk (Some ∅), None), mg)
          end
        end
      end
    end
  end.

Definition Delete (c : external W) (mg : Managed) : M W (option error * Managed) :=
  match mg with
  | anotherKind => ret (Some (errors_New errNotRepository), mg)
  | aRepository cr =>
    let cr := v1alpha1.Repository.SetConditions cr Deleting in
    err <- RepositoryService.Delete (Repositories (service c))
             (Repository.mk 0
                (v1alpha1.RepositoryParameters.Name (ForProvider cr))
                false
                (v1alpha1.RepositoryParameters.Project (ForProvider cr))
                "") ;;
    ret (err, aRepository cr)
  end.

End Controller.

(** How a call that may end the process comes back: [Exit err] is
    [log.Fatalln(err)]. *)
Variant outcome (A : Type) : Type :=
| Exit (err : error)
| Return (a : A).
Arguments Exit {A} err.
Arguments Return {A} a.

Section Factory.
Context {W : Type} `{Platform W}.
Context `{Unmarshaler repositoryJson.t} `{Unmarshaler groupsResponse.t}.

(** [bitbucket.NewService(client)] with the error it returns. *)
Definition bitbucket_NewService (client : Client) : BitBucketService W * option error :=
  (NewService client, None).

(** The [bitbucketService] variable.  [bitbucket_NewClient] is the
    two-argument [bitbucket.NewClient(baseURL, creds)] the controller was
    written against. *)
Definition bitbucketService
    (bitbucket_NewClient : string -> string -> M W (error + Client))
    (baseURL : string) (creds : list Byte.byte) :
    M W (outcome (BitBucketService W * option error)) :=
  r <- bitbucket_NewClient baseURL (string_of_list_byte creds) ;;
  match r with
  | inl err => ret (Exit err)
  | inr client =>
    let (service, err) := bitbucket_NewService client in
    match err with
    | Some err => ret (Exit err)
    | None => ret (Return (service, err))
    end
  end.

End Factory.

End repository.

(** ** Observing the calls a controller run makes

    A wrapper of the interface that writes down every call with its result
    and hands the call on to the wrapped service. *)

Module trace.
Import bitbucket.

Variant Call : Type :=
| CallGet (repository : Repository.t)
| CallCreate (repository : Repository.t)
| CallUpdate (repository : Repository.t)
| CallDelete (repository : Repository.t)
| CallGetGroups (repository : Repository.t)
| CallAddGroup (repository : Repository.t) (group : Group.t)
| CallRevokeGroup (repository : Repository.t) (group : Group.t).

Variant Event : Type :=
| EvGet (repository : Repository.t) (res : error + Repository.t)
| EvCreate (repository : Repository.t) (res : error + Repository.t)
| EvUpdate (repository : Repository.t) (res : error + Repository.t)
| EvDelete (repository : Repository.t) (err : option error)
| EvGetGroups (repository : Repository.t) (res : slice Group.t * option error)
| EvAddGroup (repository : Repository.t) (group : Group.t) (err : option error)
| EvRevokeGroup (repository : Repository.t) (group : Group.t) (err : option error).

Definition call_of (ev : Event) : Call :=
  match ev with
  | EvGet r _ => CallGet r
  | EvCreate r _ => CallCreate r
  | EvUpdate r _ => CallUpdate r
  | EvDelete r _ => CallDelete r
  | EvGetGroups r _ => CallGetGroups r
  | EvAddGroup r g _ => CallAddGroup r g
  | EvRevokeGroup r g _ => CallRevokeGroup r g
  end.

Definition err_of {A} (res : error + A) : option error :=
  match res with
  | inl err => Some err
  | inr _ => None
  end.

(** The error the call returned. *)
Definition failure_of (ev : Event) : option error :=
  match ev with
  | EvGet _ res | EvCreate _ res | EvUpdate _ res => err_of res
  | EvGetGroups _ res => snd res
  | EvDelete _ err | EvAddGroup _ _ err | EvRevokeGroup _ _ err => err
  end.

Definition succeeded (ev : Event) : Prop := failure_of ev = None.

Section Recording.
Context {W : Type}.

Definition record {A} (ev : A -> Event) (m : M W A) : M (W * list Event) A :=
  fun s =>
    let (a, w') := m (fst s) in
    (a, (w', snd s ++ [ev a])).

Definition recording (svc : RepositoryService.t W) : RepositoryService.t (W * list Event) :=
  RepositoryService.mk
    (fun r => record (EvGet r) (RepositoryService.Get svc r))
    (fun r => record (EvCreate r) (RepositoryService.Create svc r))
    (fun r => record (EvUpdate r) (RepositoryService.Update svc r))
    (fun r => record (EvDelete r) (RepositoryService.Delete svc r))
    (fun r => record (EvGetGroups r) (RepositoryService.GetGroups svc r))
    (fun r g => record (EvAddGroup r g) (RepositoryService.AddGroup svc r g))
    (fun r g => record (EvRevokeGroup r g) (RepositoryService.RevokeGroup svc r g)).

(** The controller over the recording wrapper of [svc]. *)
Definition recorded (svc : RepositoryService.t W) : repository.external (W * list Event) :=
  repository.mkExternal (mkBitBucketService (recording svc)).

(** The controller over [svc] itself. *)
Definition direct (svc : RepositoryService.t W) : repository.external W :=
  repository.mkExternal (mkBitBucketService svc).

End Recording.

(** What a run returned, and the events it left behind. *)
Definition returned {W A} (out : A * (W * list Event)) : A := fst out.
Definition events {W A} (out : A * (W * list Event)) : list Event := snd (snd out).
Definition world {W A} (out : A * (W * list Event)) : W := fst (snd out).

(** [evs] are the events of going through [plan] one call after the other
    and stopping at the first call that fails, and [err] is what such a
    run returns: the calls made are a prefix of [plan]; with no error the
    whole of [plan] was called and every call succeeded; with an error [e]
    the last call made is the one that failed with [e], and every call
    before it succeeded. *)
Definition stops_at_first_failure (plan : list Call) (evs : list Event)
    (err : option error) : Prop :=
  exists remaining : list Call,
    plan = map call_of evs ++ remaining /\
    match err with
    | None => remaining = [] /\ Forall succeeded evs
    | Some e =>
      exists pre ev, evs = pre ++ [ev] /\ Forall succeeded pre /\ failure_of ev = Some e
    end.

End trace.

(** ** Test doubles

    An in-memory server behind the interface, a wrapper that makes chosen
    calls fail, and a scripted HTTP exchange below the transport.  They run
    the examples; the properties quantify over every service and every
    platform. *)

Module fake.
Import bitbucket trace.

(** *** An in-memory server *)

Definition Server : Type := list (Repository.t * list Group.t).

Definition addressed (repository : Repository.t) (entry : Repository.t * list Group.t) : bool :=
  String.eqb (Repository.Project repository) (Repository.Project (fst entry)) &&
  String.eqb (Repository.Name repository) (Repository.Name (fst entry)).

Definition lookup (repository : Repository.t) (srv : Server) :
    option (Repository.t * list Group.t) :=
  List.find (addressed repository) srv.

Definition change (repository : Repository.t)
    (f : Repository.t * list Group.t -> Repository.t * list Group.t) (srv : Server) : Server :=
  map (fun entry => if addressed repository entry then f entry else entry) srv.

Definition named (group : Group.t) (g : Group.t) : bool :=
  String.eqb (Group.Name group) (Group.Name g).

(** Granting overwrites the permission of a group that has one. *)
Definition grant (group : Group.t) (groups : list Group.t) : list Group.t :=
  if existsb (named group) groups
  then map (fun g => if named group g then group else g) groups
  else groups ++ [group].

Definition revoke (group : Group.t) (groups : list Group.t) : list Group.t :=
  List.filter (fun g => negb (named group g)) groups.

Definition absent {A} (fail : error -> A) : M Server A :=
  ret (fail (fmt_Errorf_w "error fetching repository: " ErrNotFound)).

Definition server : RepositoryService.t Server :=
  RepositoryService.mk
    (fun r srv =>
       match lookup r srv with
       | Some entry => (inr (fst entry), srv)
       | None => absent inl srv
       end)
    (fun r srv =>
       match lookup r srv with
       | Some _ => (inl (fmt_Errorf_w "error creating repository: " ErrConflict), srv)
       | None =>
         let repo := Repository.mk (Z.of_nat (S (length srv))) (Repository.Name r)
                       (Repository.Public r) (Repository.Project r)
                       (Repository.Description r) in
         (inr repo, srv ++ [(repo, [])])
       end)
    (fun r srv =>
       match lookup r srv with
       | Some entry =>
         let repo := Repository.mk (Repository.ID (fst entry)) (Repository.Name r)
                       (Repository.Public r) (Repository.Project r)
                       (Repository.Description r) in
         (inr repo, change r (fun entry => (repo, snd entry)) srv)
       | None => absent inl srv
       end)
    (fun r srv =>
       match lookup r srv with
       | Some _ => (None, List.filter (fun entry => negb (addressed r entry)) srv)
       | None => absent Some srv
       end)
    (fun r srv =>
       match lookup r srv with
       | Some entry => ((sliceOf (snd entry), None), srv)
       | None => absent (fun err => (nilSlice, Some err)) srv
       end)
    (fun r g srv =>
       match lookup r srv with
       | Some _ => (None, change r (fun entry => (fst entry, grant g (snd entry))) srv)
       | None => absent Some srv
       end)
    (fun r g srv =>
       match lookup r srv with
       | Some _ => (None, change r (fun entry => (fst entry, revoke g (snd entry))) srv)
       | None => absent Some srv
       end).

(** *** A service some of whose calls fail *)

Definition failingOn {W} (fails : Call -> option error) (svc : RepositoryService.t W) :
    RepositoryService.t W :=
  RepositoryService.mk
    (fun r => match fails (CallGet r) with
              | Some err => ret (inl err)
              | None => RepositoryService.Get svc r
              end)
    (fun r => match fails (CallCreate r) with
              | Some err => ret (inl err)
              | None => RepositoryService.Create svc r
              end)
    (fun r => match fails (CallUpdate r) with
              | Some err => ret (inl err)
              | None => RepositoryService.Update svc r
              end)
    (fun r => match fails (CallDelete r) with
              | Some err => ret (Some err)
              | None => RepositoryService.Delete svc r
              end)
    (fun r => match fails (CallGetGroups r) with
              | Some err => ret (nilSlice, Some err)
              | None => RepositoryService.GetGroups svc r
              end)
    (fun r g => match fails (CallAddGroup r g) with
                | Some err => ret (Some err)
                | None => RepositoryService.AddGroup svc r g
                end)
    (fun r g => match fails (CallRevokeGroup r g) with
                | Some err => ret (Some err)
                | None => RepositoryService.RevokeGroup svc r g
                end).

(** *** A scripted HTTP exchange *)

(** The responses still to be played, and the requests sent so far. *)
Definition Wire : Type := list (error + Response.t) * list Request.t.

Definition platform : Platform Wire := {|
  url_Parse base path := inr (base +:+ path);
  http_NewRequest_err _ _ := None;
  json_Encode body := inr (list_byte_of_string (Repository.Name body));
  http_Client_Do req := fun w =>
    match fst w with
    | [] => (inl (errorString "EOF"), ([], snd w ++ [req]))
    | r :: script => (r, (script, snd w ++ [req]))
    end;
|}.

(** Stand-ins for the decoders: an empty body is a syntax error; any other
    body decodes, for a repository to one named by the body, for a group
    listing to one group per byte, in the order of the bytes. *)
Definition unmarshalRepository : Unmarshaler repositoryJson.t :=
  fun out t =>
    match out with
    | [] => (t, Some (SyntaxError "unexpected end of JSON input" 0))
    | _ => (repositoryJson.mk 1 (string_of_list_byte out) "CORE" "", None)
    end.

Definition unmarshalGroups : Unmarshaler groupsResponse.t :=
  fun out t =>
    match out with
    | [] => (t, Some (SyntaxError "unexpected end of JSON input" 0))
    | _ =>
      (groupsResponse.mk
         (sliceOf (map (fun b => groupsResponse.entry.mk
                                   (string_of_list_byte [b]) "REPO_READ") out)),
       None)
    end.

Definition client : Client := mkClient {["Authorization" := "Bearer c2VjcmV0"]} "https://git.example/rest/api/1.0/".

(** A host with an empty system pool and one certificate file; a pool is
    the list of the PEM blocks appended to it, and an empty block appends
    nothing. *)
Definition host : Host := {|
  CertPool := list (list Byte.byte);
  x509_SystemCertPool := Some [];
  x509_NewCertPool := [];
  CertPool_AppendCertsFromPEM pool certs :=
    match certs with
    | [] => (pool, false)
    | _ => (pool ++ [certs], true)
    end;
  os_Stat_IsNotExist path := negb (String.eqb path "/etc/ssl/ca.pem");
  os_ReadFile path := (list_byte_of_string "PEM", None);
  net_url_Parse raw := inr raw;
|}.

(** The custom resource of the examples: plain metadata, and a status that
    keeps the conditions set on it. *)
Definition crossplane : Crossplane := {|
  ObjectMeta := option string;
  ResourceStatus := list string;
  Condition := string;
  Available := "Available";
  Creating := "Creating";
  Deleting := "Deleting";
  ResourceStatus_SetConditions st c := st ++ [c];
  meta_SetExternalName _ name := Some name;
|}.

End fake.

(** ** Vocabulary of the properties *)

Module props.
Import bitbucket trace.

(** The (name, permission) pairs of a desired and of a remote group list. *)
Definition desiredGrants (crGroups : slice v1alpha1.AdGroup.t) : list (string * string) :=
  map (fun g => (v1alpha1.AdGroup.Name g, v1alpha1.AdGroup.Permission g)) (elems crGroups).

Definition remoteGrants (groups : slice Group.t) : list (string * string) :=
  map (fun g => (Group.Name g, Group.Permission g)) (elems groups).

(** The two lists hold the same set of pairs. *)
Definition sameGrants (crGroups : slice v1alpha1.AdGroup.t) (groups : slice Group.t) : Prop :=
  forall p, In p (desiredGrants crGroups) <-> In p (remoteGrants groups).

(** The group names of a desired list. *)
Definition desiredNames (crGroups : slice v1alpha1.AdGroup.t) : list string :=
  map v1alpha1.AdGroup.Name (elems crGroups).

(** [cr.Spec.ForProvider] *)
Definition desired `{Crossplane} (cr : v1alpha1.Repository.t) : v1alpha1.RepositoryParameters.t :=
  v1alpha1.RepositorySpec.ForProvider (v1alpha1.Repository.Spec cr).

(** The literal [Observe] and [Delete] address the repository by: name and
    project, every other field zero. *)
Definition repositoryRef `{Crossplane} (cr : v1alpha1.Repository.t) : Repository.t :=
  Repository.mk 0 (v1alpha1.RepositoryParameters.Name (desired cr)) false
    (v1alpha1.RepositoryParameters.Project (desired cr)) "".

(** The path of a repository below the API root. *)
Definition repositoryPath (project name : string) : string :=
  "projects/" +:+ project +:+ "/repos/" +:+ name.

(** The path of its group permissions. *)
Definition groupsPath (project name : string) : string :=
  "projects/" +:+ project +:+ "/repos/" +:+ name +:+ "/permissions/groups".

(** The path and query [AddGroup] and [RevokeGroup] ask for: the names go
    into the query as they are. *)
Definition grantPath (project name group permission : string) : string :=
  "projects/" +:+ project +:+ "/repos/" +:+ name +:+ "/permissions/groups?name=" +:+
  group +:+ "&permission=" +:+ permission.

Definition revokePath (project name group : string) : string :=
  "projects/" +:+ project +:+ "/repos/" +:+ name +:+ "/permissions/groups?name=" +:+ group.

(** The path of the repositories of a project. *)
Definition reposPath (project : string) : string :=
  "projects/" +:+ project +:+ "/repos".




(** A call that only reads. *)
Definition reads (c : Call) : bool :=
  match c with
  | CallGet _ | CallGetGroups _ => true
  | _ => false
  end.

(** [k] slashes. *)
Fixpoint slashes (k : nat) : string :=
  match k with
  | O => EmptyString
  | S k => "/" +:+ slashes k
  end.

(** The certificate pool construction starts from. *)
Definition basePool `{Host} : CertPool :=
  match x509_SystemCertPool with
  | Some pool => pool
  | None => x509_NewCertPool
  end.

(** The client [NewClient] builds around a parsed base URL. *)
Definition clientFor (base64creds pBaseURL : string) : Client :=
  mkClient {["Authorization" := "Bearer " +:+ base64creds]} pBaseURL.

(** The grant a listed entry stands for. *)
Definition groupOf (entry : groupsResponse.entry.t) : Group.t :=
  Group.mk (groupsResponse.entry.Group_Name entry) (groupsResponse.entry.Permission entry).

(** The error of an exchange, as the methods of the resource client see
    it: of the exchange itself, or of handling its response with no
    target. *)
Definition exchangeError (r : error + Response.t) : option error :=
  match r with
  | inl err => Some err
  | inr res => snd (handleResponse res (@None noTarget))
  end.

(** The grant sent for a desired group. *)
Definition grantOf (g : v1alpha1.AdGroup.t) : Group.t :=
  Group.mk (v1alpha1.AdGroup.Name g) (v1alpha1.AdGroup.Permission g).

(** One [AddGroup] per desired grant, in the order of the desired list. *)
Definition upserts (repo : Repository.t) (Groups : list v1alpha1.AdGroup.t) : list Call :=
  map (fun g => CallAddGroup repo (grantOf g)) Groups.

(** A remote grant whose group name no desired grant carries. *)
Definition unknown (Groups : list v1alpha1.AdGroup.t) (group : Group.t) : bool :=
  if in_dec String.string_dec (Group.Name group) (map v1alpha1.AdGroup.Name Groups)
  then false else true.

(** One [RevokeGroup] per unknown remote grant, in the order of the remote
    list. *)
Definition prunes (repo : Repository.t) (Groups : list v1alpha1.AdGroup.t)
    (groups : list Group.t) : list Call :=
  map (CallRevokeGroup repo) (List.filter (unknown Groups) groups).

(** A call that puts something on the server or grants access; the others
    take something away ([Delete], [RevokeGroup]) or only read. *)
Definition creates (c : Call) : bool :=
  match c with
  | CallCreate _ | CallAddGroup _ _ => true
  | _ => false
  end.

(** The managed resource with the visibility flag of its desired state set
    to [b] and nothing else changed. *)
Definition withPublic `{Crossplane} (b : bool) (mg : resource.Managed) : resource.Managed :=
  match mg with
  | resource.aRepository cr =>
    resource.aRepository (v1alpha1.Repository.set_Spec_ForProvider_Public cr b)
  | resource.anotherKind => resource.anotherKind
  end.

(** The outcome of an operation, with the flag set in the resource it
    leaves. *)
Definition outcomeWithPublic `{Crossplane} {W A} (b : bool)
    (out : (A * resource.Managed) * W) : (A * resource.Managed) * W :=
  ((fst (fst out), withPublic b (snd (fst out))), snd out).

(** [cr] as [Observe] leaves it once the fetch returned [repository]. *)
Definition observed `{Crossplane} (cr : v1alpha1.Repository.t) (repository : Repository.t) :
    v1alpha1.Repository.t :=
  v1alpha1.Repository.set_Status_AtProvider_ID
    (v1alpha1.Repository.SetConditions cr Available) (Repository.ID repository).

End props.

(** ** Inputs of the examples *)

Module example.
Import bitbucket trace.

Definition A_read : v1alpha1.AdGroup.t := v1alpha1.AdGroup.mk "A" "read".
Definition A_admin : v1alpha1.AdGroup.t := v1alpha1.AdGroup.mk "A" "admin".
Definition B_write : v1alpha1.AdGroup.t := v1alpha1.AdGroup.mk "B" "write".
Definition C_read : v1alpha1.AdGroup.t := v1alpha1.AdGroup.mk "C" "read".

(** What the server holds. *)
Definition remote_A_read : Group.t := Group.mk "A" "read".
Definition remote_B_write : Group.t := Group.mk "B" "write".

(** A custom resource with the given parameters and an empty status. *)
Definition cr_of (p : v1alpha1.RepositoryParameters.t) : @v1alpha1.Repository.t fake.crossplane :=
  v1alpha1.Repository.mk fake.crossplane None (v1alpha1.RepositorySpec.mk p)
    (v1alpha1.RepositoryStatus.mk fake.crossplane [] (v1alpha1.RepositoryObservation.mk 0)).

(** The scenario of the specification: repository "svc" of project "CORE",
    description "x", group "devs" with "write". *)
Definition devs_write : v1alpha1.AdGroup.t := v1alpha1.AdGroup.mk "devs" "write".

Definition svc : @v1alpha1.Repository.t fake.crossplane :=
  cr_of (v1alpha1.RepositoryParameters.mk "svc" "CORE" false "x" (sliceOf [devs_write])).

(** The same with no groups asked for. *)
Definition svc_bare : @v1alpha1.Repository.t fake.crossplane :=
  cr_of (v1alpha1.RepositoryParameters.mk "svc" "CORE" false "x" nilSlice).

(** A server that holds "svc" with another description and no groups. *)
Definition stale : fake.Server := [(Repository.mk 1 "svc" false "CORE" "old", [])].

(** A server that holds "svc" as described and no groups. *)
Definition bare : fake.Server := [(Repository.mk 1 "svc" false "CORE" "x", [])].

(** One response with status 204 and an empty body to play, nothing sent. *)
Definition wire_204 : fake.Wire :=
  ([inr (Response.mk 204 ([], None) "https://git.example/rest/api/1.0/")], []).

(** A listing of two groups to play. *)
Definition wire_listing : fake.Wire :=
  ([inr (Response.mk 200 (list_byte_of_string "ab", None)
           "https://git.example/rest/api/1.0/")], []).

(** A response with status 404 whose body cannot be read. *)
Definition unreadable_404 : Response.t :=
  Response.mk 404 ([], Some (errorString "unexpected EOF"))
    "https://git.example/rest/api/1.0/projects/CORE/repos/svc".

Definition readable (code : Z) (body : string) : Response.t :=
  Response.mk code (list_byte_of_string body, None)
    "https://git.example/rest/api/1.0/projects/CORE/repos/svc".

(** One response to play, nothing sent. *)
Definition wire_of (res : Response.t) : fake.Wire := ([inr res], []).

(** The desired state of "svc" with the given groups. *)
Definition svc_with (groups : slice v1alpha1.AdGroup.t) : @v1alpha1.Repository.t fake.crossplane :=
  cr_of (v1alpha1.RepositoryParameters.mk "svc" "CORE" false "x" groups).

(** A server that holds "svc" with grants A:read and B:write. *)
Definition granted : fake.Server :=
  [(Repository.mk 1 "svc" false "CORE" "x", [remote_A_read; remote_B_write])].

(** Every call answered with 401. *)
Definition denied (c : Call) : option error :=
  Some (fmt_Errorf_w "error fetching repository: " ErrPermission).

(** The group listing answered with 401, every other call served. *)
Definition listing_denied (c : Call) : option error :=
  match c with
  | CallGetGroups _ => Some (fmt_Errorf_w "error getting repository group: " ErrPermission)
  | _ => None
  end.

End example.

(** ** Properties of [groupsEqual] *)

Section GroupsEqual.
Import bitbucket repository props.

Lemma groupsEqual_found_In crGroup groups :
  groupsEqual_found crGroup groups = true <->
  In (v1alpha1.AdGroup.Name crGroup, v1alpha1.AdGroup.Permission crGroup)
     (map (fun g => (Group.Name g, Group.Permission g)) groups).
Proof.
  induction groups as [|group groups IH]; simpl.
  - split; [discriminate | tauto].
  - destruct (String.eqb_spec (v1alpha1.AdGroup.Name crGroup) (Group.Name group)) as [En|En];
      destruct (String.eqb_spec (v1alpha1.AdGroup.Permission crGroup) (Group.Permission group))
        as [Ep|Ep]; simpl.
    + rewrite En, Ep. tauto.
    + rewrite IH. split; [tauto | intros [E|?]; [congruence | assumption]].
    + rewrite IH. split; [tauto | intros [E|?]; [congruence | assumption]].
    + rewrite IH. split; [tauto | intros [E|?]; [congruence | assumption]].
Qed.

Lemma groupsEqual_loop_incl crGroups groups :
  groupsEqual_loop crGroups groups = true <->
  incl (map (fun g => (v1alpha1.AdGroup.Name g, v1alpha1.AdGroup.Permission g)) crGroups)
       (map (fun g => (Group.Name g, Group.Permission g)) groups).
Proof.
  induction crGroups as [|crGroup crGroups IH]; simpl.
  - split; [intros _ p [] | reflexivity].
  - destruct (groupsEqual_found crGroup groups) eqn:F; simpl.
    + apply groupsEqual_found_In in F. rewrite IH. split.
      * intros Hi p [<-|Hp]; [assumption | now apply Hi].
      * intros Hi p Hp. apply Hi. now right.
    + split; [discriminate |]. intros Hi.
      rewrite <- F. apply groupsEqual_found_In, Hi. now left.
Qed.

Lemma groupsEqual_true_iff crGroups groups :
  groupsEqual crGroups groups = true <->
  len crGroups = len groups /\ incl (desiredGrants crGroups) (remoteGrants groups).
Proof.
  unfold groupsEqual, desiredGrants, remoteGrants.
  destruct (Nat.eqb_spec (len crGroups) (len groups)) as [E|E]; simpl.
  - rewrite groupsEqual_loop_incl. tauto.
  - split; [discriminate | tauto].
Qed.

Lemma desiredGrants_NoDup crGroups :
  List.NoDup (desiredNames crGroups) -> List.NoDup (desiredGrants crGroups).
Proof.
  unfold desiredNames, desiredGrants.
  induction (elems crGroups) as [|g l IH]; simpl; intros Hn.
  - constructor.
  - apply List.NoDup_cons_iff in Hn as [Hg Hl]. constructor; [|now apply IH].
    intros Hin. apply Hg. apply in_map_iff in Hin as [g' [E Hg']].
    apply in_map_iff. exists g'. split; [congruence | assumption].
Qed.

Lemma desiredGrants_length crGroups : length (desiredGrants crGroups) = len crGroups.
Proof. unfold desiredGrants, len. apply length_map. Qed.

Lemma remoteGrants_length groups : length (remoteGrants groups) = len groups.
Proof. unfold remoteGrants, len. apply length_map. Qed.

(** With one grant per group name on the desired side, equal length and
    inclusion give the inclusion the other way round. *)
Lemma groupsEqual_sameGrants crGroups groups :
  List.NoDup (desiredNames crGroups) ->
  (groupsEqual crGroups groups = true <->
   len crGroups = len groups /\ sameGrants crGroups groups).
Proof.
  intros Hn. rewrite groupsEqual_true_iff. unfold sameGrants. split.
  - intros [Hl Hi]. split; [assumption|]. intros p. split; [apply Hi|].
    revert p. apply NoDup_length_incl.
    + now apply desiredGrants_NoDup.
    + rewrite desiredGrants_length, remoteGrants_length, Hl. reflexivity.
    + assumption.
  - intros [Hl Hs]. split; [assumption|]. intros p Hp. now apply Hs.
Qed.

Lemma groupsEqual_Permutation crGroups groups crGroups' groups' :
  Permutation (elems crGroups) (elems crGroups') ->
  Permutation (elems groups) (elems groups') ->
  groupsEqual crGroups' groups' = groupsEqual crGroups groups.
Proof.
  intros Pc Pg. apply Bool.eq_iff_eq_true. rewrite !groupsEqual_true_iff.
  unfold len, desiredGrants, remoteGrants.
  rewrite (Permutation_length Pc), (Permutation_length Pg).
  pose proof (Permutation_map
    (fun g => (v1alpha1.AdGroup.Name g, v1alpha1.AdGroup.Permission g)) Pc) as Pc'.
  pose proof (Permutation_map (fun g => (Group.Name g, Group.Permission g)) Pg) as Pg'.
  split; intros [Hl Hi]; (split; [assumption|]); intros p Hp.
  - apply (Permutation_in _ (Permutation_sym Pg')), Hi, (Permutation_in _ Pc'), Hp.
  - apply (Permutation_in _ Pg'), Hi, (Permutation_in _ (Permutation_sym Pc')), Hp.
Qed.

Lemma groupsEqual_nil_remote crGroups :
  groupsEqual crGroups nilSlice = Nat.eqb (len crGroups) 0.
Proof.
  unfold groupsEqual, len. simpl.
  destruct (elems crGroups); reflexivity.
Qed.

(** C1, as the code has it.  For a desired list with at most one grant per
    group name and any remote list, [groupsEqual] returns true exactly when
    the two lists have the same length and hold the same set of
    (name, permission) pairs; for a remote list without a repeated pair the
    length need not be asked for.  The result is unchanged by permuting
    either list, false when the lengths differ, and false when a group name
    the two lists share carries different permissions. *)
Theorem groupsEqual_set_equality crGroups groups :
  List.NoDup (desiredNames crGroups) ->
  (groupsEqual crGroups groups = true <->
   len crGroups = len groups /\ sameGrants crGroups groups) /\
  (List.NoDup (remoteGrants groups) ->
   (groupsEqual crGroups groups = true <-> sameGrants crGroups groups)) /\
  (forall crGroups' groups',
     Permutation (elems crGroups) (elems crGroups') ->
     Permutation (elems groups) (elems groups') ->
     groupsEqual crGroups' groups' = groupsEqual crGroups groups) /\
  (len crGroups <> len groups -> groupsEqual crGroups groups = false) /\
  (forall name p q,
     In (name, p) (desiredGrants crGroups) ->
     In (name, q) (remoteGrants groups) ->
     p <> q ->
     groupsEqual crGroups groups = false).
Proof.
  intros Hn. pose proof (groupsEqual_sameGrants crGroups groups Hn) as Hset.
  split; [exact Hset | split; [| split; [| split]]].
  - intros Hd. split.
    + intros Ht. now apply Hset in Ht.
    + intros Hs. apply Hset. split; [|assumption].
      rewrite <- desiredGrants_length, <- remoteGrants_length.
      apply Permutation_length, Permutation.NoDup_Permutation;
        [now apply desiredGrants_NoDup | assumption | exact Hs].
  - intros crGroups' groups'. apply groupsEqual_Permutation.
  - intros Hl. apply not_true_is_false. intros Ht.
    apply groupsEqual_true_iff in Ht. tauto.
  - intros name p q Hp Hq Hpq. apply not_true_is_false. intros Ht.
    apply Hset in Ht as [_ Hs]. apply Hs in Hq.
    apply Hpq. clear - Hn Hp Hq. unfold desiredNames, desiredGrants in *.
    induction (elems crGroups) as [|g l IH]; simpl in *; [contradiction|].
    apply List.NoDup_cons_iff in Hn as [Hg Hl].
    destruct Hp as [Ep|Hp], Hq as [Eq|Hq].
    + congruence.
    + exfalso. apply Hg. apply in_map_iff in Hq as [g' [E Hg']].
      apply in_map_iff. exists g'. split; [congruence | assumption].
    + exfalso. apply Hg. apply in_map_iff in Hp as [g' [E Hg']].
      apply in_map_iff. exists g'. split; [congruence | assumption].
    + now apply IH.
Qed.

(** C1 as stated fails for a remote list that repeats a grant: the sets of
    pairs are equal, the lengths are not, and [groupsEqual] returns false. *)
Lemma groupsEqual_repeated_remote_grant :
  List.NoDup (desiredNames (sliceOf [example.A_read])) /\
  sameGrants (sliceOf [example.A_read])
    (sliceOf [example.remote_A_read; example.remote_A_read]) /\
  groupsEqual (sliceOf [example.A_read])
    (sliceOf [example.remote_A_read; example.remote_A_read]) = false.
Proof.
  split; [|split].
  - apply List.NoDup_cons; [intros [] | apply List.NoDup_nil].
  - intros p. simpl. tauto.
  - reflexivity.
Qed.

Lemma groupsEqual_set_equality_witness :
  List.NoDup (desiredNames (sliceOf [example.A_read; example.B_write])) /\
  (groupsEqual (sliceOf [example.A_read; example.B_write])
     (sliceOf [example.remote_B_write; example.remote_A_read]) = true <->
   len (sliceOf [example.A_read; example.B_write]) =
   len (sliceOf [example.remote_B_write; example.remote_A_read]) /\
   sameGrants (sliceOf [example.A_read; example.B_write])
     (sliceOf [example.remote_B_write; example.remote_A_read])).
Proof.
  assert (Hn : List.NoDup (desiredNames (sliceOf [example.A_read; example.B_write]))).
  { apply List.NoDup_cons; [simpl; intros [E|[]]; discriminate E|].
    apply List.NoDup_cons; [intros []|]. apply List.NoDup_nil. }
  split; [exact Hn|].
  exact (proj1 (groupsEqual_set_equality
                  (sliceOf [example.A_read; example.B_write])
                  (sliceOf [example.remote_B_write; example.remote_A_read]) Hn)).
Defined.

End GroupsEqual.

(** ** The resource client: what a failed listing returns *)

Section GetGroupsFailure.
Import bitbucket.
Context {W : Type} `{Platform W}.
Context `{Unmarshaler repositoryJson.t} `{Unmarshaler groupsResponse.t}.

(** [GetGroups] returns a nil slice with every error. *)
Lemma GetGroups_failure_nil service repository w groups e w' :
  repositoryService.GetGroups service repository w = ((groups, Some e), w') ->
  groups = nilSlice.
Proof.
  unfold repositoryService.GetGroups, bind, ret.
  destruct (newRequest _ _ _ _) as [err|req].
  - intros E. now inversion E.
  - destruct (do _ req _ w) as [[stored [err|]] w0]; intros E; now inversion E.
Qed.

End GetGroupsFailure.

(** ** Properties of [Observe] *)

Section Observe.
Import bitbucket managed resource repository trace props.
Context `{Crossplane} {W : Type}.

Lemma errors_Is_wrapError msg err target :
  In target classifications ->
  errors_Is (wrapError msg err) target = errors_Is err target.
Proof.
  intros Ht. simpl in Ht.
  decompose [or] Ht; subst; try contradiction; reflexivity.
Qed.

(** What a recorded call leaves in the log. *)
Lemma record_run {A} (ev : A -> Event) (m : M W A) w log a w' :
  m w = (a, w') -> record ev m (w, log) = (a, (w', log ++ [ev a])).
Proof. intros E. unfold record. simpl. now rewrite E. Qed.

(** C3.  When the fetch fails with an error that is [ErrNotFound] (possibly
    wrapped), [Observe] returns an observation with [ResourceExists] false
    and no error; when it fails with any other error, [Observe] returns that
    error, wrapped with a message and classified as before, an empty
    observation, and the resource untouched. *)
Theorem Observe_fetch_failure (svc : RepositoryService.t W) cr w err w1 :
  RepositoryService.Get svc (repositoryRef cr) w = (inl err, w1) ->
  (errors_Is err ErrNotFound = true ->
   Observe (direct svc) (aRepository cr) w =
   (((ExternalObservation.mk false false None, None), aRepository cr), w1)) /\
  (errors_Is err ErrNotFound = false ->
   Observe (direct svc) (aRepository cr) w =
   (((ExternalObservation.zero,
      Some (errors_Wrap err "error fetching Bitbucket repository")),
     aRepository cr), w1) /\
   Forall (fun target =>
             errors_Is (errors_Wrap err "error fetching Bitbucket repository") target =
             errors_Is err target) classifications).
Proof.
  intros HGet. unfold repositoryRef, desired in HGet.
  split; intros Hc.
  - unfold Observe, bind. simpl. rewrite HGet, Hc. reflexivity.
  - split.
    + unfold Observe, bind. simpl. rewrite HGet, Hc. reflexivity.
    + apply List.Forall_forall. intros target Ht. now apply errors_Is_wrapError.
Qed.

(** C4.  When the fetch succeeds and the remote description differs from
    the desired one, [Observe] reports an existing resource that is not up
    to date, with no error, and the fetch is the only call it makes: the
    group grants are neither listed nor compared. *)
Theorem Observe_description_short_circuit (svc : RepositoryService.t W) cr w repository w1 :
  RepositoryService.Get svc (repositoryRef cr) w = (inr repository, w1) ->
  Repository.Description repository <>
    v1alpha1.RepositoryParameters.Description (desired cr) ->
  Observe (direct svc) (aRepository cr) w =
  (((ExternalObservation.mk true false None, None),
    aRepository (observed cr repository)), w1) /\
  events (Observe (recorded svc) (aRepository cr) (w, [])) =
  [EvGet (repositoryRef cr) (inr repository)].
Proof.
  intros HGet Hd. apply String.eqb_neq in Hd.
  unfold repositoryRef, desired, observed in *. split.
  - unfold Observe, bind. simpl. rewrite HGet. simpl. rewrite Hd. reflexivity.
  - unfold Observe, bind, events. simpl.
    rewrite (record_run _ _ _ _ _ _ HGet). simpl. rewrite Hd. reflexivity.
Qed.

(** C9.  When the fetch succeeds, the descriptions agree and the listing of
    the group grants fails, [Observe] returns no error: it reports an
    existing resource, up to date exactly when [groupsEqual] accepts the
    slice that came with the error.  With the nil slice, which is what
    [repositoryService.GetGroups] returns with every error, the resource is
    up to date exactly when no group is desired. *)
Theorem Observe_ignores_GetGroups_error (svc : RepositoryService.t W)
    cr w repository w1 groups e w2 :
  RepositoryService.Get svc (repositoryRef cr) w = (inr repository, w1) ->
  Repository.Description repository =
    v1alpha1.RepositoryParameters.Description (desired cr) ->
  RepositoryService.GetGroups svc repository w1 = ((groups, Some e), w2) ->
  (exists obs,
     Observe (direct svc) (aRepository cr) w =
     (((obs, None), aRepository (observed cr repository)), w2) /\
     ExternalObservation.ResourceExists obs = true /\
     ExternalObservation.ResourceUpToDate obs =
       groupsEqual (v1alpha1.RepositoryParameters.Groups (desired cr)) groups /\
     (groups = nilSlice ->
      ExternalObservation.ResourceUpToDate obs =
        Nat.eqb (len (v1alpha1.RepositoryParameters.Groups (desired cr))) 0)) /\
  (forall (P : Platform W) (UR : Unmarshaler repositoryJson.t)
          (UG : Unmarshaler groupsResponse.t) service,
     svc = repositoryService.asInterface service -> groups = nilSlice).
Proof.
  intros HGet Hd HGroups. split.
  - apply String.eqb_eq in Hd. unfold repositoryRef, desired, observed in *.
    exists (if groupsEqual
                 (v1alpha1.RepositoryParameters.Groups
                    (v1alpha1.RepositorySpec.ForProvider (v1alpha1.Repository.Spec cr)))
                 groups
            then ExternalObservation.mk true true (Some ∅)
            else ExternalObservation.mk true false None).
    split; [|split; [|split]].
    + unfold Observe, bind. simpl. rewrite HGet. simpl. rewrite Hd. simpl.
      rewrite HGroups. now destruct (groupsEqual _ groups).
    + now destruct (groupsEqual _ groups).
    + now destruct (groupsEqual _ groups).
    + intros ->. rewrite groupsEqual_nil_remote. now destruct (Nat.eqb _ 0).
  - intros P UR UG service ->. simpl in HGroups.
    now apply GetGroups_failure_nil in HGroups.
Qed.

End Observe.

Section ObserveWitnesses.
Import bitbucket managed resource repository trace props.

Lemma Observe_fetch_failure_witness :
  (RepositoryService.Get fake.server (repositoryRef example.svc) [] =
   (inl (fmt_Errorf_w "error fetching repository: " ErrNotFound), []) /\
   errors_Is (fmt_Errorf_w "error fetching repository: " ErrNotFound) ErrNotFound = true /\
   Observe (direct fake.server) (aRepository example.svc) [] =
   (((ExternalObservation.mk false false None, None), aRepository example.svc), [])) /\
  (RepositoryService.Get (fake.failingOn example.denied fake.server)
     (repositoryRef example.svc) [] =
   (inl (fmt_Errorf_w "error fetching repository: " ErrPermission), []) /\
   errors_Is (fmt_Errorf_w "error fetching repository: " ErrPermission) ErrNotFound = false /\
   Observe (direct (fake.failingOn example.denied fake.server))
     (aRepository example.svc) [] =
   (((ExternalObservation.zero,
      Some (errors_Wrap (fmt_Errorf_w "error fetching repository: " ErrPermission)
              "error fetching Bitbucket repository")),
     aRepository example.svc), [])).
Proof.
  split.
  - split; [reflexivity | split; [reflexivity |]].
    apply (proj1 (Observe_fetch_failure fake.server example.svc [] _ [] eq_refl)).
    reflexivity.
  - split; [reflexivity | split; [reflexivity |]].
    apply (proj2 (Observe_fetch_failure (fake.failingOn example.denied fake.server)
                    example.svc [] _ [] eq_refl)).
    reflexivity.
Defined.

Lemma Observe_description_short_circuit_witness :
  RepositoryService.Get fake.server (repositoryRef example.svc) example.stale =
  (inr (Repository.mk 1 "svc" false "CORE" "old"), example.stale) /\
  "old" <> v1alpha1.RepositoryParameters.Description (desired example.svc) /\
  Observe (direct fake.server) (aRepository example.svc) example.stale =
  (((ExternalObservation.mk true false None, None),
    aRepository (observed example.svc (Repository.mk 1 "svc" false "CORE" "old"))),
   example.stale) /\
  events (Observe (recorded fake.server) (aRepository example.svc) (example.stale, [])) =
  [EvGet (repositoryRef example.svc) (inr (Repository.mk 1 "svc" false "CORE" "old"))].
Proof.
  assert (Hd : "old" <> v1alpha1.RepositoryParameters.Description (desired example.svc))
    by discriminate.
  split; [reflexivity | split; [exact Hd |]].
  exact (Observe_description_short_circuit fake.server example.svc example.stale
           (Repository.mk 1 "svc" false "CORE" "old") example.stale eq_refl Hd).
Defined.

Lemma Observe_ignores_GetGroups_error_witness :
  RepositoryService.Get (fake.failingOn example.listing_denied fake.server)
    (repositoryRef example.svc_bare) example.bare =
  (inr (Repository.mk 1 "svc" false "CORE" "x"), example.bare) /\
  "x" = v1alpha1.RepositoryParameters.Description (desired example.svc_bare) /\
  RepositoryService.GetGroups (fake.failingOn example.listing_denied fake.server)
    (Repository.mk 1 "svc" false "CORE" "x") example.bare =
  ((nilSlice, Some (fmt_Errorf_w "error getting repository group: " ErrPermission)),
   example.bare) /\
  exists obs,
    Observe (direct (fake.failingOn example.listing_denied fake.server))
      (aRepository example.svc_bare) example.bare =
    (((obs, None),
      aRepository (observed example.svc_bare (Repository.mk 1 "svc" false "CORE" "x"))),
     example.bare) /\
    ExternalObservation.ResourceExists obs = true /\
    ExternalObservation.ResourceUpToDate obs = true.
Proof.
  split; [reflexivity | split; [reflexivity | split; [reflexivity |]]].
  destruct (proj1 (Observe_ignores_GetGroups_error
                     (fake.failingOn example.listing_denied fake.server)
                     example.svc_bare example.bare
                     (Repository.mk 1 "svc" false "CORE" "x") example.bare nilSlice
                     (fmt_Errorf_w "error getting repository group: " ErrPermission)
                     example.bare eq_refl eq_refl eq_refl))
    as [obs [Ho [He [_ Hu]]]].
  exists obs. split; [exact Ho | split; [exact He |]].
  rewrite (Hu eq_refl). reflexivity.
Defined.

End ObserveWitnesses.

(** ** Runs that stop at the first failure *)

Section Stops.
Import bitbucket trace.

Lemma stops_nil : stops_at_first_failure [] [] None.
Proof. exists []. repeat split. constructor. Qed.

Lemma stops_failed ev e plan :
  failure_of ev = Some e ->
  stops_at_first_failure (call_of ev :: plan) [ev] (Some e).
Proof.
  intros Hf. exists plan. split; [reflexivity|].
  exists [], ev. repeat split; [constructor | assumption].
Qed.

Lemma stops_cons ev plan evs err :
  failure_of ev = None ->
  stops_at_first_failure plan evs err ->
  stops_at_first_failure (call_of ev :: plan) (ev :: evs) err.
Proof.
  intros Hf [remaining [Hp Herr]]. exists remaining. split.
  - simpl. now rewrite Hp.
  - destruct err as [e|].
    + destruct Herr as [pre [ev' [-> [Hpre Hev']]]].
      exists (ev :: pre), ev'. repeat split; [now constructor | assumption].
    + destruct Herr as [-> Hall]. split; [reflexivity | now constructor].
Qed.

Lemma stops_app plan1 plan2 evs1 evs2 err :
  stops_at_first_failure plan1 evs1 None ->
  stops_at_first_failure plan2 evs2 err ->
  stops_at_first_failure (plan1 ++ plan2) (evs1 ++ evs2) err.
Proof.
  intros [r1 [Hp1 [-> Hall1]]] [r2 [Hp2 Herr]]. exists r2. split.
  - rewrite Hp1, Hp2, app_nil_r, map_app, app_assoc. reflexivity.
  - destruct err as [e|].
    + destruct Herr as [pre [ev [-> [Hpre Hev]]]].
      exists (evs1 ++ pre), ev. rewrite app_assoc. repeat split; [|assumption].
      apply List.Forall_app. now split.
    + destruct Herr as [-> Hall2]. split; [reflexivity|].
      apply List.Forall_app. now split.
Qed.

Lemma stops_app_failed plan1 plan2 evs e :
  stops_at_first_failure plan1 evs (Some e) ->
  stops_at_first_failure (plan1 ++ plan2) evs (Some e).
Proof.
  intros [r1 [Hp1 Herr]]. exists (r1 ++ plan2). split; [|assumption].
  rewrite Hp1, app_assoc. reflexivity.
Qed.

(** Every call made is one of the plan. *)
Lemma stops_calls_in_plan plan evs err ev :
  stops_at_first_failure plan evs err -> In ev evs -> In (call_of ev) plan.
Proof.
  intros [remaining [-> _]] Hin. apply in_or_app. left. now apply in_map.
Qed.

End Stops.

(** ** Properties of [Create] and [Update] *)

Section CreateUpdate.
Import bitbucket managed resource repository trace props.
Context `{Crossplane} {W : Type}.

Lemma Create_loop_recorded (svc : RepositoryService.t W) repository Groups w log :
  exists evs,
    snd (snd (Create_loop (recorded svc) repository Groups (w, log))) = log ++ evs /\
    stops_at_first_failure (upserts repository Groups) evs
      (fst (Create_loop (recorded svc) repository Groups (w, log))).
Proof.
  revert w log. induction Groups as [|g Groups IH]; intros w log; simpl.
  - exists []. rewrite app_nil_r. split; [reflexivity | apply stops_nil].
  - unfold bind.
    destruct (RepositoryService.AddGroup svc repository (grantOf g) w) as [[e|] w'] eqn:E;
      rewrite (record_run _ _ _ _ _ _ E); simpl.
    + exists [EvAddGroup repository (grantOf g) (Some e)]. split; [reflexivity|].
      now apply (stops_failed (EvAddGroup repository (grantOf g) (Some e))).
    + destruct (IH w' (log ++ [EvAddGroup repository (grantOf g) None])) as [evs [Hl Hs]].
      exists (EvAddGroup repository (grantOf g) None :: evs). split.
      * etransitivity; [exact Hl | now rewrite <- app_assoc].
      * apply (stops_cons (EvAddGroup repository (grantOf g) None)); [reflexivity|].
        exact Hs.
Qed.

Lemma Update_loop_recorded (svc : RepositoryService.t W) repo Groups w log :
  exists evs,
    snd (snd (Update_loop (recorded svc) repo Groups (w, log))) = log ++ evs /\
    stops_at_first_failure (upserts repo Groups) evs
      (fst (Update_loop (recorded svc) repo Groups (w, log))).
Proof.
  revert w log. induction Groups as [|g Groups IH]; intros w log; simpl.
  - exists []. rewrite app_nil_r. split; [reflexivity | apply stops_nil].
  - unfold bind.
    destruct (RepositoryService.AddGroup svc repo (grantOf g) w) as [[e|] w'] eqn:E;
      rewrite (record_run _ _ _ _ _ _ E); simpl.
    + exists [EvAddGroup repo (grantOf g) (Some e)]. split; [reflexivity|].
      now apply (stops_failed (EvAddGroup repo (grantOf g) (Some e))).
    + destruct (IH w' (log ++ [EvAddGroup repo (grantOf g) None])) as [evs [Hl Hs]].
      exists (EvAddGroup repo (grantOf g) None :: evs). split.
      * etransitivity; [exact Hl | now rewrite <- app_assoc].
      * apply (stops_cons (EvAddGroup repo (grantOf g) None)); [reflexivity|].
        exact Hs.
Qed.

Lemma Update_found_unknown group Groups :
  negb (Update_found group Groups) = unknown Groups group.
Proof.
  unfold unknown.
  destruct (in_dec _ _ _) as [Hin|Hin].
  - induction Groups as [|crGroup Groups IH]; simpl in *; [contradiction|].
    destruct (String.eqb_spec (Group.Name group) (v1alpha1.AdGroup.Name crGroup)) as [E|E];
      [reflexivity|].
    destruct Hin as [Hin|Hin]; [congruence | now apply IH].
  - induction Groups as [|crGroup Groups IH]; simpl in *; [reflexivity|].
    destruct (String.eqb_spec (Group.Name group) (v1alpha1.AdGroup.Name crGroup)) as [E|E].
    + exfalso. apply Hin. left. congruence.
    + apply IH. intros Hin'. apply Hin. now right.
Qed.

Lemma Update_delete_loop_recorded (svc : RepositoryService.t W) repo Groups groups w log :
  exists evs,
    snd (snd (Update_delete_loop (recorded svc) repo Groups groups (w, log))) = log ++ evs /\
    stops_at_first_failure (prunes repo Groups groups) evs
      (fst (Update_delete_loop (recorded svc) repo Groups groups (w, log))).
Proof.
  revert w log. induction groups as [|group groups IH]; intros w log; simpl.
  - exists []. rewrite app_nil_r. split; [reflexivity | apply stops_nil].
  - unfold prunes. simpl. rewrite Update_found_unknown.
    destruct (unknown Groups group); simpl.
    + unfold bind.
      destruct (RepositoryService.RevokeGroup svc repo group w) as [[e|] w'] eqn:E;
        rewrite (record_run _ _ _ _ _ _ E); simpl.
      * exists [EvRevokeGroup repo group (Some e)]. split; [reflexivity|].
        now apply (stops_failed (EvRevokeGroup repo group (Some e))).
      * destruct (IH w' (log ++ [EvRevokeGroup repo group None])) as [evs [Hl Hs]].
        exists (EvRevokeGroup repo group None :: evs). split.
        -- etransitivity; [exact Hl | now rewrite <- app_assoc].
        -- apply (stops_cons (EvRevokeGroup repo group None)); [reflexivity|].
           exact Hs.
    + apply IH.
Qed.

Lemma upserts_creates repo Groups c : In c (upserts repo Groups) -> creates c = true.
Proof. unfold upserts. intros Hin. apply in_map_iff in Hin as [g [<- _]]. reflexivity. Qed.

Lemma prunes_unknown repo Groups groups r g :
  In (CallRevokeGroup r g) (prunes repo Groups groups) ->
  ~ In (Group.Name g) (map v1alpha1.AdGroup.Name Groups).
Proof.
  unfold prunes. intros Hin. apply in_map_iff in Hin as [g' [E Hg']].
  inversion E; subst. apply filter_In in Hg' as [_ Hu].
  unfold unknown in Hu. now destruct (in_dec _ _ _).
Qed.

(** C7.  [Create] issues the repository-create call; if that fails it makes
    no further call and returns the error; otherwise it calls [AddGroup]
    with the created repository for each desired grant in the order of the
    desired list, stops at the first [AddGroup] that fails and returns that
    error.  Whatever happens, every call it makes creates or grants: nothing
    is deleted or revoked. *)
Theorem Create_then_grants (svc : RepositoryService.t W) cr w :
  let out := Create (recorded svc) (aRepository cr) (w, []) in
  let err := snd (fst (returned out)) in
  match RepositoryService.Create svc (repoToCreate cr) w with
  | (inl e, _) =>
    events out = [EvCreate (repoToCreate cr) (inl e)] /\ err = Some e
  | (inr repository, _) =>
    exists evs,
      events out = EvCreate (repoToCreate cr) (inr repository) :: evs /\
      stops_at_first_failure
        (upserts repository (elems (v1alpha1.RepositoryParameters.Groups (desired cr))))
        evs err
  end /\
  Forall (fun ev => creates (call_of ev) = true) (events out).
Proof.
  unfold events, returned, Create, bind, desired. simpl.
  change (repoToCreate (v1alpha1.Repository.SetConditions cr Creating))
    with (repoToCreate cr).
  destruct (RepositoryService.Create svc (repoToCreate cr) w) as [[e|repository] w1] eqn:E;
    rewrite (record_run _ _ _ _ _ _ E); simpl.
  - split; [split; reflexivity|]. repeat constructor.
  - destruct (Create_loop_recorded svc repository
                (elems (v1alpha1.RepositoryParameters.Groups
                   (v1alpha1.RepositorySpec.ForProvider (v1alpha1.Repository.Spec cr))))
                w1 [EvCreate (repoToCreate cr) (inr repository)]) as [evs [Hl Hs]].
    destruct (Create_loop (recorded svc) repository _ _) as [err [w2 log]] eqn:L.
    simpl in Hl, Hs. subst log.
    assert (Hc : Forall (fun ev => creates (call_of ev) = true)
                   (EvCreate (repoToCreate cr) (inr repository) :: evs)).
    { constructor; [reflexivity|]. apply List.Forall_forall. intros ev Hev.
      eapply upserts_creates, stops_calls_in_plan; eassumption. }
    destruct err as [e|]; simpl; (split; [exists evs; split; [reflexivity | exact Hs] | exact Hc]).
Qed.

(** The calls of [Update], by the results of its first two. *)
Lemma Update_run (svc : RepositoryService.t W) cr w :
  let out := Update (recorded svc) (aRepository cr) (w, []) in
  let err := snd (fst (returned out)) in
  let Groups := elems (v1alpha1.RepositoryParameters.Groups (desired cr)) in
  match RepositoryService.Update svc (repoToUpdate cr) w with
  | (inl e, _) =>
    events out = [EvUpdate (repoToUpdate cr) (inl e)] /\ err = Some e
  | (inr repo, w1) =>
    match RepositoryService.GetGroups svc repo w1 with
    | ((groups, Some e), _) =>
      events out = [EvUpdate (repoToUpdate cr) (inr repo);
                    EvGetGroups repo (groups, Some e)] /\
      err = Some e
    | ((groups, None), _) =>
      exists evs,
        events out = EvUpdate (repoToUpdate cr) (inr repo) ::
                     EvGetGroups repo (groups, None) :: evs /\
        stops_at_first_failure
          (upserts repo Groups ++ prunes repo Groups (elems groups)) evs err
    end
  end.
Proof.
  unfold events, returned, Update, bind, desired. simpl.
  destruct (RepositoryService.Update svc (repoToUpdate cr) w) as [[e|repo] w1] eqn:E;
    rewrite (record_run _ _ _ _ _ _ E); simpl; [split; reflexivity|].
  destruct (RepositoryService.GetGroups svc repo w1) as [[groups [e|]] w2] eqn:G;
    rewrite (record_run _ _ _ _ _ _ G); simpl; [split; reflexivity|].
  set (Groups := elems (v1alpha1.RepositoryParameters.Groups
                   (v1alpha1.RepositorySpec.ForProvider (v1alpha1.Repository.Spec cr)))).
  destruct (Update_loop_recorded svc repo Groups w2
              [EvUpdate (repoToUpdate cr) (inr repo); EvGetGroups repo (groups, None)])
    as [evs1 [Hl1 Hs1]].
  destruct (Update_loop (recorded svc) repo Groups _) as [err1 [w3 log1]] eqn:L1.
  simpl in Hl1, Hs1. subst log1. destruct err1 as [e|]; simpl.
  - exists evs1. split; [reflexivity | now apply stops_app_failed].
  - destruct (Update_delete_loop_recorded svc repo Groups (elems groups) w3
                (EvUpdate (repoToUpdate cr) (inr repo) ::
                 EvGetGroups repo (groups, None) :: evs1))
      as [evs2 [Hl2 Hs2]].
    destruct (Update_delete_loop (recorded svc) repo Groups (elems groups) _)
      as [err2 [w4 log2]] eqn:L2.
    simpl in Hl2, Hs2. subst log2.
    assert (Hs : stops_at_first_failure
                   (upserts repo Groups ++ prunes repo Groups (elems groups))
                   (evs1 ++ evs2) err2) by now apply stops_app.
    destruct err2 as [e|]; simpl; exists (evs1 ++ evs2);
      (split; [reflexivity | exact Hs]).
Qed.

(** C2.  [Update] first issues the repository update and, when that
    succeeds, lists the remote grants; when both succeed it goes through
    one [AddGroup] per desired grant, in the order of the desired list, and
    then one [RevokeGroup] per remote grant whose group name no desired
    grant carries, stopping at the first call that fails and returning its
    error; no call is made to undo the ones before.  No grant whose name is
    desired is ever revoked.  For remote grants A:read, B:write and desired
    grants A:admin, C:read the calls are the update, the listing, the upsert
    of A to admin, the upsert of C to read and the revocation of B, cut
    short only by a failure. *)
Theorem Update_upserts_then_prunes (svc : RepositoryService.t W) cr w :
  let out := Update (recorded svc) (aRepository cr) (w, []) in
  let err := snd (fst (returned out)) in
  let Groups := elems (v1alpha1.RepositoryParameters.Groups (desired cr)) in
  match RepositoryService.Update svc (repoToUpdate cr) w with
  | (inl e, _) =>
    events out = [EvUpdate (repoToUpdate cr) (inl e)] /\ err = Some e
  | (inr repo, w1) =>
    match RepositoryService.GetGroups svc repo w1 with
    | ((groups, Some e), _) =>
      events out = [EvUpdate (repoToUpdate cr) (inr repo);
                    EvGetGroups repo (groups, Some e)] /\
      err = Some e
    | ((groups, None), _) =>
      exists evs,
        events out = EvUpdate (repoToUpdate cr) (inr repo) ::
                     EvGetGroups repo (groups, None) :: evs /\
        stops_at_first_failure
          (upserts repo Groups ++ prunes repo Groups (elems groups)) evs err
    end
  end /\
  (forall r g e,
     In (EvRevokeGroup r g e) (events out) ->
     ~ In (Group.Name g) (desiredNames (v1alpha1.RepositoryParameters.Groups (desired cr)))) /\
  (forall repo w1 groups w2,
     Groups = [example.A_admin; example.C_read] ->
     RepositoryService.Update svc (repoToUpdate cr) w = (inr repo, w1) ->
     RepositoryService.GetGroups svc repo w1 = ((groups, None), w2) ->
     elems groups = [example.remote_A_read; example.remote_B_write] ->
     exists remaining,
       [CallUpdate (repoToUpdate cr); CallGetGroups repo;
        CallAddGroup repo (Group.mk "A" "admin");
        CallAddGroup repo (Group.mk "C" "read");
        CallRevokeGroup repo (Group.mk "B" "write")] =
       map call_of (events out) ++ remaining /\
       (err = None -> remaining = [])).
Proof.
  intros out err Groups. pose proof (Update_run svc cr w) as Hrun.
  cbv zeta in Hrun. fold out err Groups in Hrun.
  split; [exact Hrun | split].
  - intros r g e Hin. unfold desiredNames. fold Groups.
    destruct (RepositoryService.Update svc (repoToUpdate cr) w) as [[e0|repo] w1].
    { destruct Hrun as [Hev _]. rewrite Hev in Hin.
      destruct Hin as [Hin|[]]. discriminate Hin. }
    destruct (RepositoryService.GetGroups svc repo w1) as [[groups [e0|]] w2].
    { destruct Hrun as [Hev _]. rewrite Hev in Hin.
      destruct Hin as [Hin|[Hin|[]]]; discriminate Hin. }
    destruct Hrun as [evs [Hev Hs]]. rewrite Hev in Hin.
    destruct Hin as [Hin|[Hin|Hin]]; try discriminate Hin.
    apply (stops_calls_in_plan _ _ _ _ Hs) in Hin. simpl in Hin.
    apply in_app_or in Hin as [Hin|Hin].
    + apply upserts_creates in Hin. discriminate Hin.
    + now apply prunes_unknown in Hin.
  - intros repo w1 groups w2 HG HU HGG Hgroups.
    rewrite HU, HGG in Hrun. destruct Hrun as [evs [Hev [remaining [Hp Herr]]]].
    rewrite HG, Hgroups in Hp.
    exists remaining. split.
    + rewrite Hev. simpl. now rewrite <- Hp.
    + intros He. rewrite He in Herr. now destruct Herr.
Qed.

End CreateUpdate.

(** ** The visibility flag *)

Section Public.
Import bitbucket managed resource repository trace props.
Context `{Crossplane} {W : Type}.

Lemma Observe_withPublic (c : external W) mg b w :
  Observe c (withPublic b mg) w = outcomeWithPublic b (Observe c mg w).
Proof.
  destruct mg as [cr|]; [|reflexivity].
  unfold Observe, bind, outcomeWithPublic. simpl.
  destruct (RepositoryService.Get _ _ w) as [[err|repository] w1]; simpl.
  - destruct (errors_Is err ErrNotFound); reflexivity.
  - destruct (String.eqb _ _); simpl; [|reflexivity].
    destruct (RepositoryService.GetGroups _ repository w1) as [[groups err] w2]; simpl.
    destruct (groupsEqual _ groups); reflexivity.
Qed.

Lemma Create_withPublic (c : external W) mg b w :
  Create c (withPublic b mg) w = outcomeWithPublic b (Create c mg w).
Proof.
  destruct mg as [cr|]; [|reflexivity].
  unfold Create, bind, outcomeWithPublic. simpl.
  change (repoToCreate (v1alpha1.Repository.SetConditions
            (v1alpha1.Repository.set_Spec_ForProvider_Public cr b) Creating))
    with (repoToCreate (v1alpha1.Repository.SetConditions cr Creating)).
  destruct (RepositoryService.Create _ _ w) as [[err|repository] w1]; simpl; [reflexivity|].
  destruct (Create_loop c repository _ w1) as [[err|] w2]; reflexivity.
Qed.

Lemma Update_withPublic (c : external W) mg b w :
  Update c (withPublic b mg) w = outcomeWithPublic b (Update c mg w).
Proof.
  destruct mg as [cr|]; [|reflexivity].
  unfold Update, bind, outcomeWithPublic. simpl.
  change (repoToUpdate (v1alpha1.Repository.set_Spec_ForProvider_Public cr b))
    with (repoToUpdate cr).
  destruct (RepositoryService.Update _ _ w) as [[err|repo] w1]; simpl; [reflexivity|].
  destruct (RepositoryService.GetGroups _ repo w1) as [[groups [err|]] w2]; simpl;
    [reflexivity|].
  destruct (Update_loop c repo _ w2) as [[err|] w3]; simpl; [reflexivity|].
  destruct (Update_delete_loop c repo _ _ w3) as [[err|] w4]; reflexivity.
Qed.

Lemma Delete_withPublic (c : external W) mg b w :
  Delete c (withPublic b mg) w = outcomeWithPublic b (Delete c mg w).
Proof.
  destruct mg as [cr|]; [|reflexivity].
  unfold Delete, bind, outcomeWithPublic. simpl.
  destruct (RepositoryService.Delete _ _ w) as [err w1]; reflexivity.
Qed.

End Public.

Section PublicFlag.
Import bitbucket managed resource repository trace props.
Context `{Crossplane} {W : Type}.

(** C8.  Setting the visibility flag of the desired state to any value
    changes nothing in what [Observe], [Create], [Update] and [Delete] do:
    each returns the same result and leaves the server in the same state,
    over every service, and the resource it leaves differs in the flag
    alone.  The records handed to the create and the update call do not
    carry the flag, so the calls made, arguments included, are the same
    too.  Two resources that agree on everything but the flag are related
    in this way. *)
Theorem public_flag_is_never_read (svc : RepositoryService.t W) mg b w :
  (Observe (direct svc) (withPublic b mg) w =
     outcomeWithPublic b (Observe (direct svc) mg w) /\
   Create (direct svc) (withPublic b mg) w =
     outcomeWithPublic b (Create (direct svc) mg w) /\
   Update (direct svc) (withPublic b mg) w =
     outcomeWithPublic b (Update (direct svc) mg w) /\
   Delete (direct svc) (withPublic b mg) w =
     outcomeWithPublic b (Delete (direct svc) mg w)) /\
  (forall cr,
     repoToCreate (v1alpha1.Repository.set_Spec_ForProvider_Public cr b) = repoToCreate cr /\
     repoToUpdate (v1alpha1.Repository.set_Spec_ForProvider_Public cr b) = repoToUpdate cr /\
     Repository.Public (repoToCreate cr) = false /\
     Repository.Public (repoToUpdate cr) = false) /\
  (events (Observe (recorded svc) (withPublic b mg) (w, [])) =
     events (Observe (recorded svc) mg (w, [])) /\
   events (Create (recorded svc) (withPublic b mg) (w, [])) =
     events (Create (recorded svc) mg (w, [])) /\
   events (Update (recorded svc) (withPublic b mg) (w, [])) =
     events (Update (recorded svc) mg (w, [])) /\
   events (Delete (recorded svc) (withPublic b mg) (w, [])) =
     events (Delete (recorded svc) mg (w, []))) /\
  (forall cr1 cr2,
     v1alpha1.Repository.ObjectMeta cr1 = v1alpha1.Repository.ObjectMeta cr2 ->
     v1alpha1.Repository.Status cr1 = v1alpha1.Repository.Status cr2 ->
     v1alpha1.RepositoryParameters.Name (desired cr1) =
       v1alpha1.RepositoryParameters.Name (desired cr2) ->
     v1alpha1.RepositoryParameters.Project (desired cr1) =
       v1alpha1.RepositoryParameters.Project (desired cr2) ->
     v1alpha1.RepositoryParameters.Description (desired cr1) =
       v1alpha1.RepositoryParameters.Description (desired cr2) ->
     v1alpha1.RepositoryParameters.Groups (desired cr1) =
       v1alpha1.RepositoryParameters.Groups (desired cr2) ->
     aRepository cr2 =
       withPublic (v1alpha1.RepositoryParameters.Public (desired cr2)) (aRepository cr1)).
Proof.
  split; [|split; [|split]]; cycle 3.
  { intros [om1 [[n1 p1 b1 d1 g1]] st1] [om2 [[n2 p2 b2 d2 g2]] st2].
    unfold desired. simpl. intros -> -> -> -> -> ->. reflexivity. }
  - repeat split;
      [apply Observe_withPublic | apply Create_withPublic
      | apply Update_withPublic | apply Delete_withPublic].
  - intros cr. repeat split.
  - unfold events.
    rewrite Observe_withPublic, Create_withPublic, Update_withPublic, Delete_withPublic.
    repeat split.
Qed.

End PublicFlag.

(** ** Properties of the transport client *)

Section HandleResponse.
Import bitbucket.
Context {T : Type} `{Unmarshaler T}.

(** C5, as the code has it.  The body is read first, and a failure to read
    it is returned as it is, whatever the status.  For a response whose
    body was read: status 404 gives [ErrNotFound], 401 [ErrPermission], 409
    [ErrConflict], and any other status from 400 on an error that prints
    the request URL and the status code; below 400, with a nil target or
    status 204, nothing is decoded and no error is returned; otherwise the
    body is decoded into the target, a syntax error of the decoder is
    returned as [ErrResponseMalformed] and any other error of the decoder
    as it is. *)
Theorem handleResponse_classification (res : Response.t) (v : option T) :
  (forall out e,
     io_ReadAll (Response.Body res) = (out, Some e) ->
     handleResponse res v = (None, Some e)) /\
  (forall out,
     io_ReadAll (Response.Body res) = (out, None) ->
     (Response.StatusCode res = 404 ->
      handleResponse res v = (None, Some ErrNotFound)) /\
     (Response.StatusCode res = 401 ->
      handleResponse res v = (None, Some ErrPermission)) /\
     (Response.StatusCode res = 409 ->
      handleResponse res v = (None, Some ErrConflict)) /\
     (Response.StatusCode res >= 400 ->
      Response.StatusCode res <> 404 ->
      Response.StatusCode res <> 401 ->
      Response.StatusCode res <> 409 ->
      handleResponse res v =
      (None, Some (errorString (Response.Request_URL res +:+ " returned " +:+
                                itoa (Response.StatusCode res))))) /\
     (Response.StatusCode res < 400 ->
      v = None \/ Response.StatusCode res = 204 ->
      handleResponse res v = (None, None)) /\
     (forall t t' derr,
        Response.StatusCode res < 400 ->
        Response.StatusCode res <> 204 ->
        v = Some t ->
        json_Unmarshal out t = (t', derr) ->
        (derr = None -> handleResponse res v = (Some t', None)) /\
        (forall e, derr = Some e -> errors_As_SyntaxError e = true ->
                   handleResponse res v = (Some t', Some ErrResponseMalformed)) /\
        (forall e, derr = Some e -> errors_As_SyntaxError e = false ->
                   handleResponse res v = (Some t', Some e))))%Z.
Proof.
  split.
  - intros out e Hr. unfold handleResponse. now rewrite Hr.
  - intros out Hr. unfold handleResponse. rewrite Hr.
    unfold http_StatusBadRequest, http_StatusNoContent.
    split; [|split; [|split; [|split; [|split]]]].
    + intros ->. reflexivity.
    + intros ->. reflexivity.
    + intros ->. reflexivity.
    + intros Hge H404 H401 H409.
      apply Z.eqb_neq in H404, H401, H409. rewrite H404, H401, H409.
      assert (Hb : (Response.StatusCode res >=? 400)%Z = true) by (apply Z.geb_le; lia).
      now rewrite Hb.
    + intros Hlt Hv.
      assert (Hge : (Response.StatusCode res >=? 400)%Z = false).
      { destruct (Z.geb_spec (Response.StatusCode res) 400); [lia | reflexivity]. }
      assert (H404 : (Response.StatusCode res =? 404)%Z = false) by (apply Z.eqb_neq; lia).
      assert (H401 : (Response.StatusCode res =? 401)%Z = false) by (apply Z.eqb_neq; lia).
      assert (H409 : (Response.StatusCode res =? 409)%Z = false) by (apply Z.eqb_neq; lia).
      rewrite H404, H401, H409, Hge.
      destruct Hv as [->|Hv]; [reflexivity|].
      rewrite Hv. simpl. now destruct v.
    + intros t t' derr Hlt H204 -> Hu.
      assert (Hge : (Response.StatusCode res >=? 400)%Z = false).
      { destruct (Z.geb_spec (Response.StatusCode res) 400); [lia | reflexivity]. }
      assert (H404 : (Response.StatusCode res =? 404)%Z = false) by (apply Z.eqb_neq; lia).
      assert (H401 : (Response.StatusCode res =? 401)%Z = false) by (apply Z.eqb_neq; lia).
      assert (H409 : (Response.StatusCode res =? 409)%Z = false) by (apply Z.eqb_neq; lia).
      apply Z.eqb_neq in H204.
      rewrite H404, H401, H409, Hge, H204, Hu.
      split; [|split].
      * intros ->. reflexivity.
      * intros e -> ->. reflexivity.
      * intros e -> ->. reflexivity.
Qed.

(** What a call that returned no error stored in a target it was given. *)
Lemma handleResponse_success (res : Response.t) (t : T) stored :
  handleResponse res (Some t) = (stored, None) ->
  exists out,
    io_ReadAll (Response.Body res) = (out, None) /\
    (Response.StatusCode res < 400)%Z /\
    ((Response.StatusCode res = 204%Z /\ stored = None) \/
     (Response.StatusCode res <> 204%Z /\
      json_Unmarshal out t = (after t stored, None) /\ stored <> None)).
Proof.
  unfold handleResponse.
  destruct (io_ReadAll (Response.Body res)) as [out [e|]]; [discriminate|].
  destruct (Z.eqb_spec (Response.StatusCode res) 404); [discriminate|].
  destruct (Z.eqb_spec (Response.StatusCode res) 401); [discriminate|].
  destruct (Z.eqb_spec (Response.StatusCode res) 409); [discriminate|].
  unfold http_StatusBadRequest, http_StatusNoContent.
  destruct (Z.geb_spec (Response.StatusCode res) 400); [discriminate|].
  intros Hh. exists out. split; [reflexivity | split; [lia|]].
  destruct (Z.eqb_spec (Response.StatusCode res) 204) as [E|E].
  - left. split; [assumption | now inversion Hh].
  - right. split; [assumption|].
    destruct (json_Unmarshal out t) as [t' [e|]].
    + destruct (errors_As_SyntaxError e); discriminate.
    + inversion Hh. simpl. split; [reflexivity | discriminate].
Qed.

End HandleResponse.

Section HandleResponseExamples.
Import bitbucket.

(** C5 as stated fails for a response whose body cannot be read: with
    status 404 the read error is returned, not [ErrNotFound]. *)
Lemma handleResponse_unreadable_body :
  @handleResponse _ fake.unmarshalRepository example.unreadable_404
    (Some repositoryJson.zero) =
  (None, Some (errorString "unexpected EOF")) /\
  errorString "unexpected EOF" <> ErrNotFound /\
  errors_Is (errorString "unexpected EOF") ErrNotFound = false.
Proof. split; [reflexivity | split; [discriminate | reflexivity]]. Qed.

Lemma handleResponse_classification_witness :
  (io_ReadAll (Response.Body (example.readable 404 "")) = ([], None) /\
   Response.StatusCode (example.readable 404 "") = 404%Z /\
   @handleResponse _ fake.unmarshalRepository (example.readable 404 "")
     (Some repositoryJson.zero) = (None, Some ErrNotFound)) /\
  (io_ReadAll (Response.Body (example.readable 500 "")) = ([], None) /\
   @handleResponse _ fake.unmarshalRepository (example.readable 500 "")
     (Some repositoryJson.zero) =
   (None, Some (errorString
      "https://git.example/rest/api/1.0/projects/CORE/repos/svc returned 500"))) /\
  (io_ReadAll (Response.Body (example.readable 200 "")) = ([], None) /\
   json_Unmarshal (Unmarshaler := fake.unmarshalRepository) [] repositoryJson.zero =
     (repositoryJson.zero, Some (SyntaxError "unexpected end of JSON input" 0)) /\
   @handleResponse _ fake.unmarshalRepository (example.readable 200 "")
     (Some repositoryJson.zero) =
   (Some repositoryJson.zero, Some ErrResponseMalformed)).
Proof.
  split; [|split].
  - split; [reflexivity | split; [reflexivity |]].
    exact (proj1 (proj2 (@handleResponse_classification _ fake.unmarshalRepository
                           (example.readable 404 "") (Some repositoryJson.zero))
                    [] eq_refl) eq_refl).
  - split; [reflexivity |].
    apply (proj2 (@handleResponse_classification _ fake.unmarshalRepository
                    (example.readable 500 "") (Some repositoryJson.zero)) [] eq_refl);
      simpl; lia.
  - split; [reflexivity | split; [reflexivity |]].
    destruct (@handleResponse_classification _ fake.unmarshalRepository
                (example.readable 200 "") (Some repositoryJson.zero)) as [_ Hc].
    destruct (Hc [] eq_refl) as (_ & _ & _ & _ & _ & Hd).
    assert (Hlt : (Response.StatusCode (example.readable 200 "") < 400)%Z) by (simpl; lia).
    assert (Hne : Response.StatusCode (example.readable 200 "") <> 204%Z) by (simpl; lia).
    destruct (Hd repositoryJson.zero repositoryJson.zero
                (Some (SyntaxError "unexpected end of JSON input" 0))
                Hlt Hne eq_refl eq_refl) as (_ & Hm & _).
    exact (Hm _ eq_refl eq_refl).
Defined.

End HandleResponseExamples.

(** ** Properties of the resource client *)

Section ResourceClient.
Import bitbucket props.
Context {W : Type} `{Platform W}.
Context `{Unmarshaler repositoryJson.t} `{Unmarshaler groupsResponse.t}.

(** A request that was built carries the method it was asked for and the
    URL the path resolved to. *)
Lemma newRequest_built (c : Client) method path body req :
  newRequest c method path body = inr req ->
  Request.Method req = method /\ url_Parse (baseURL c) path = inr (Request.URL req).
Proof.
  unfold newRequest.
  destruct (url_Parse (baseURL c) path) as [err|u]; [discriminate|].
  set (built := if String.eqb method http_MethodGet then _ else _).
  assert (Hb : forall r, built = inr r -> Request.Method r = method /\ Request.URL r = u).
  { subst built. unfold http_NewRequest. intros r.
    destruct (String.eqb method http_MethodGet).
    - destruct (http_NewRequest_err method u); [discriminate|].
      intros E. inversion E. split; reflexivity.
    - destruct (match body with Some b => json_Encode b | None => inr [] end) as [err|buf];
        [discriminate|].
      destruct (http_NewRequest_err method u); [discriminate|].
      intros E. inversion E. split; reflexivity. }
  destruct built as [err|r]; [discriminate|].
  destruct (Hb r eq_refl) as [Hm Hu]. intros E. injection E as <-.
  assert (Hf : forall (hdrs : gmap string string) r0,
             Request.Method (map_fold (fun k v req => Request.Header_Set req k v) r0 hdrs) =
               Request.Method r0 /\
             Request.URL (map_fold (fun k v req => Request.Header_Set req k v) r0 hdrs) =
               Request.URL r0).
  { intros hdrs r0.
    apply (map_fold_weak_ind
             (fun r' _ => Request.Method r' = Request.Method r0 /\
                          Request.URL r' = Request.URL r0)).
    - split; reflexivity.
    - intros k v m r' _ [Hm' Hu']. simpl. split; assumption. }
  destruct (Hf (headers c) (Request.Header_Set r "Accept" jsonMediaType)) as [Hm' Hu'].
  rewrite Hm', Hu'. simpl. split; congruence.
Qed.

Lemma GetGroups_loop_map Values l :
  repositoryService.GetGroups_loop Values (sliceOf l) = sliceOf (l ++ map groupOf Values).
Proof.
  revert l. induction Values as [|entry Values IH]; intros l; simpl.
  - now rewrite app_nil_r.
  - unfold append. simpl. fold (groupOf entry).
    unfold repositoryService.GetGroups_loop in IH. rewrite IH, <- app_assoc. reflexivity.
Qed.

(** C10.  When [GetGroups] returns no error, it sent one GET for the
    permissions of the repository, the body of the response was read, and
    the result is a non-nil slice holding one grant per entry of the
    "values" the body decoded to, in their order (of an empty envelope when
    the status was 204 and nothing was decoded); with no entries it is the
    empty slice. *)
Theorem GetGroups_success service repository w groups w' :
  repositoryService.GetGroups service repository w = ((groups, None), w') ->
  exists req res out response,
    newRequest (repositoryService.client service) http_MethodGet
      (groupsPath (Repository.Project repository) (Repository.Name repository))
      None = inr req /\
    Request.Method req = "GET" /\
    http_Client_Do req w = (inr res, w') /\
    io_ReadAll (Response.Body res) = (out, None) /\
    response = (if (Response.StatusCode res =? 204)%Z then groupsResponse.zero
                else fst (json_Unmarshal out groupsResponse.zero)) /\
    groups = sliceOf (map groupOf (elems (groupsResponse.Values response))) /\
    isNil groups = false /\
    (elems (groupsResponse.Values response) = [] -> groups = sliceOf []).
Proof.
  unfold repositoryService.GetGroups, groupsPath, do, bind, ret.
  destruct (newRequest _ _ _ _) as [err|req] eqn:R; [discriminate|].
  destruct (http_Client_Do req w) as [[err|res] w0] eqn:D; [discriminate|].
  destruct (handleResponse res (Some groupsResponse.zero)) as [stored [err|]] eqn:Hh;
    [discriminate|].
  intros E. injection E as <- <-.
  destruct (handleResponse_success _ _ _ Hh) as [out [Hr [Hlt Hcase]]].
  exists req, res, out, (after groupsResponse.zero stored).
  rewrite GetGroups_loop_map. simpl.
  split; [reflexivity|].
  split; [apply (newRequest_built _ _ _ _ _ R)|].
  split; [exact D|].
  split; [exact Hr|].
  split; [|split; [reflexivity | split; [reflexivity|]]].
  - destruct Hcase as [[E ->]|[E [Hu _]]].
    + rewrite E. reflexivity.
    + apply Z.eqb_neq in E. rewrite E, Hu. reflexivity.
  - intros ->. reflexivity.
Qed.

(** X7.  The newer [Delete] answers a request it cannot build with an
    error, and otherwise sends one DELETE to the repository and returns an
    error exactly when the exchange gives one. *)
Lemma Delete_sends_DELETE service repository w :
  match newRequest (repositoryService.client service) "DELETE"
          (repositoryPath (Repository.Project repository) (Repository.Name repository))
          None with
  | inl err =>
    repositoryService.Delete service repository w =
    (Some (fmt_Errorf_w "error creating request for deleting repository: " err), w)
  | inr req =>
    Request.Method req = "DELETE" /\
    snd (repositoryService.Delete service repository w) = snd (http_Client_Do req w) /\
    (fst (repositoryService.Delete service repository w) = None <->
     exchangeError (fst (http_Client_Do req w)) = None)
  end.
Proof.
  unfold repositoryService.Delete, repositoryPath, http_MethodDelete, do, bind, ret.
  destruct (newRequest _ _ _ _) as [err|req] eqn:R; [reflexivity|].
  split; [apply (newRequest_built _ _ _ _ _ R)|].
  destruct (http_Client_Do req w) as [[err|res] w0]; simpl.
  - split; [reflexivity | split; discriminate].
  - destruct (handleResponse res None) as [stored [err|]]; simpl;
      (split; [reflexivity | split; congruence]).
Qed.

(** The [Delete] of src/internal/bitbucket/repository.go does the same
    with a PUT. *)
Lemma internal_Delete_sends_PUT service repository w :
  match newRequest (internal_bitbucket.repositoryService.client service) "PUT"
          (repositoryPath (internal_bitbucket.Repository.Project repository)
             (internal_bitbucket.Repository.Name repository))
          None with
  | inl err =>
    internal_bitbucket.repositoryService.Delete service repository w =
    (Some (fmt_Errorf_w "error creating request for deleting repository: " err), w)
  | inr req =>
    Request.Method req = "PUT" /\
    snd (internal_bitbucket.repositoryService.Delete service repository w) =
      snd (http_Client_Do req w) /\
    (fst (internal_bitbucket.repositoryService.Delete service repository w) = None <->
     exchangeError (fst (http_Client_Do req w)) = None)
  end.
Proof.
  unfold internal_bitbucket.repositoryService.Delete, repositoryPath, do, bind, ret.
  destruct (newRequest _ _ _ _) as [err|req] eqn:R; [reflexivity|].
  split; [apply (newRequest_built _ _ _ _ _ R)|].
  destruct (http_Client_Do req w) as [[err|res] w0]; simpl.
  - split; [reflexivity | split; discriminate].
  - destruct (handleResponse res None) as [stored [err|]]; simpl;
      (split; [reflexivity | split; congruence]).
Qed.

End ResourceClient.

Section ResourceClientExamples.
Import bitbucket props.
#[local] Existing Instance fake.platform.
#[local] Existing Instance fake.unmarshalRepository.
#[local] Existing Instance fake.unmarshalGroups.

Lemma GetGroups_success_witness :
  let out := repositoryService.GetGroups (repositoryService.mk fake.client)
               (Repository.mk 1 "svc" false "CORE" "x") example.wire_listing in
  out = ((sliceOf [Group.mk "a" "REPO_READ"; Group.mk "b" "REPO_READ"], None), snd out) /\
  exists req res body response,
    newRequest fake.client http_MethodGet (groupsPath "CORE" "svc") None = inr req /\
    Request.Method req = "GET" /\
    http_Client_Do req example.wire_listing = (inr res, snd out) /\
    io_ReadAll (Response.Body res) = (body, None) /\
    response = (if (Response.StatusCode res =? 204)%Z then groupsResponse.zero
                else fst (json_Unmarshal body groupsResponse.zero)) /\
    sliceOf [Group.mk "a" "REPO_READ"; Group.mk "b" "REPO_READ"] =
      sliceOf (map groupOf (elems (groupsResponse.Values response))) /\
    isNil (sliceOf [Group.mk "a" "REPO_READ"; Group.mk "b" "REPO_READ"]) = false /\
    (elems (groupsResponse.Values response) = [] ->
     sliceOf [Group.mk "a" "REPO_READ"; Group.mk "b" "REPO_READ"] = sliceOf []).
Proof.
  assert (Hout :
    repositoryService.GetGroups (repositoryService.mk fake.client)
      (Repository.mk 1 "svc" false "CORE" "x") example.wire_listing =
    ((sliceOf [Group.mk "a" "REPO_READ"; Group.mk "b" "REPO_READ"], None),
     snd (repositoryService.GetGroups (repositoryService.mk fake.client)
            (Repository.mk 1 "svc" false "CORE" "x") example.wire_listing)))
    by (vm_compute; reflexivity).
  split; [exact Hout|].
  exact (GetGroups_success (repositoryService.mk fake.client)
           (Repository.mk 1 "svc" false "CORE" "x") example.wire_listing _ _ Hout).
Defined.

(** C6 on the code.  Asked to delete repository "svc" of project "CORE",
    the [Delete] of src/internal/bitbucket/repository.go sends a PUT to
    projects/CORE/repos/svc; the other revision of the file sends a DELETE
    to the same path.  Both return no error on a 204. *)
Theorem Delete_request_verbs :
  let old := internal_bitbucket.repositoryService.Delete
               (internal_bitbucket.repositoryService.mk fake.client)
               (internal_bitbucket.Repository.mk 0 "svc" "CORE" "") example.wire_204 in
  let new := repositoryService.Delete (repositoryService.mk fake.client)
               (Repository.mk 0 "svc" false "CORE" "") example.wire_204 in
  map (fun req => (Request.Method req, Request.URL req)) (snd (snd old)) =
    [("PUT", "https://git.example/rest/api/1.0/projects/CORE/repos/svc")] /\
  map (fun req => (Request.Method req, Request.URL req)) (snd (snd new)) =
    [("DELETE", "https://git.example/rest/api/1.0/projects/CORE/repos/svc")] /\
  fst old = None /\
  fst new = None.
Proof. vm_compute. repeat split. Qed.

End ResourceClientExamples.

(** ** The controller against the in-memory server *)

Section Scenarios.
Import bitbucket managed resource repository trace props.

(** The example of the specification for [Update]: remote grants A:read
    and B:write, desired grants A:admin and C:read. *)
Example Update_example :
  let cr := example.cr_of
              (v1alpha1.RepositoryParameters.mk "svc" "CORE" false "x"
                 (sliceOf [example.A_admin; example.C_read])) in
  let srv := [(Repository.mk 1 "svc" false "CORE" "x",
               [example.remote_A_read; example.remote_B_write])] in
  let repo := Repository.mk 1 "svc" false "CORE" "x" in
  let out := Update (recorded fake.server) (aRepository cr) (srv, []) in
  map call_of (events out) =
    [CallUpdate (Repository.mk 0 "svc" false "CORE" "x"); CallGetGroups repo;
     CallAddGroup repo (Group.mk "A" "admin"); CallAddGroup repo (Group.mk "C" "read");
     CallRevokeGroup repo (Group.mk "B" "write")] /\
  snd (fst (returned out)) = None /\
  world out = [(repo, [Group.mk "A" "admin"; Group.mk "C" "read"])].
Proof. vm_compute. repeat split. Qed.

Lemma Update_upserts_then_prunes_witness :
  let cr := example.cr_of
              (v1alpha1.RepositoryParameters.mk "svc" "CORE" false "x"
                 (sliceOf [example.A_admin; example.C_read])) in
  let repo := Repository.mk 1 "svc" false "CORE" "x" in
  let srv := [(repo, [example.remote_A_read; example.remote_B_write])] in
  let out := Update (recorded fake.server) (aRepository cr) (srv, []) in
  RepositoryService.Update fake.server (repoToUpdate cr) srv = (inr repo, srv) /\
  RepositoryService.GetGroups fake.server repo srv =
    ((sliceOf [example.remote_A_read; example.remote_B_write], None), srv) /\
  exists remaining,
    [CallUpdate (repoToUpdate cr); CallGetGroups repo;
     CallAddGroup repo (Group.mk "A" "admin");
     CallAddGroup repo (Group.mk "C" "read");
     CallRevokeGroup repo (Group.mk "B" "write")] =
    map call_of (events out) ++ remaining /\
    (snd (fst (returned out)) = None -> remaining = []).
Proof.
  split; [reflexivity | split; [reflexivity |]].
  exact (proj2 (proj2 (Update_upserts_then_prunes fake.server
           (example.cr_of
              (v1alpha1.RepositoryParameters.mk "svc" "CORE" false "x"
                 (sliceOf [example.A_admin; example.C_read])))
           [(Repository.mk 1 "svc" false "CORE" "x",
             [example.remote_A_read; example.remote_B_write])]))
         (Repository.mk 1 "svc" false "CORE" "x") _
         (sliceOf [example.remote_A_read; example.remote_B_write]) _
         eq_refl eq_refl eq_refl eq_refl).
Defined.

Lemma public_flag_is_never_read_witness :
  let cr1 := example.svc in
  let cr2 := v1alpha1.Repository.set_Spec_ForProvider_Public example.svc true in
  v1alpha1.RepositoryParameters.Public (desired cr1) = false /\
  v1alpha1.RepositoryParameters.Public (desired cr2) = true /\
  aRepository cr2 = withPublic true (aRepository cr1) /\
  Observe (direct fake.server) (aRepository cr2) example.stale =
    outcomeWithPublic true (Observe (direct fake.server) (aRepository cr1) example.stale) /\
  events (Create (recorded fake.server) (aRepository cr2) ([], [])) =
    events (Create (recorded fake.server) (aRepository cr1) ([], [])).
Proof.
  split; [reflexivity | split; [reflexivity |]].
  pose proof (public_flag_is_never_read fake.server (aRepository example.svc) true)
    as Hflag.
  split; [|split].
  - exact (proj2 (proj2 (proj2 (Hflag example.stale))) example.svc
             (v1alpha1.Repository.set_Spec_ForProvider_Public example.svc true)
             eq_refl eq_refl eq_refl eq_refl eq_refl eq_refl).
  - exact (proj1 (proj1 (Hflag example.stale))).
  - exact (proj1 (proj2 (proj1 (proj2 (proj2 (Hflag [])))))).
Defined.

(** The scenario of the specification: against an empty server, [Create]
    makes one create call and one [AddGroup] for "devs", and the [Observe]
    that follows finds the resource up to date. *)
Example Create_then_Observe :
  let created := Create (recorded fake.server) (aRepository example.svc) ([], []) in
  let repo := Repository.mk 1 "svc" false "CORE" "x" in
  map call_of (events created) =
    [CallCreate (Repository.mk 0 "svc" false "CORE" "x");
     CallAddGroup repo (Group.mk "devs" "write")] /\
  snd (fst (returned created)) = None /\
  fst (fst (Observe (direct fake.server) (snd (returned created)) (world created))) =
    (ExternalObservation.mk true true (Some ∅), None).
Proof. vm_compute. repeat split. Qed.

End Scenarios.

(** ** Further properties of the transport client *)

Section RequestBuilding.
Import bitbucket props.
Context {W : Type} `{Platform W}.




(** X2.  The body of a request that [newRequest] built: a GET has none,
    whatever body it was given; any other method carries an empty buffer
    for a nil body and the encoding of the body otherwise.  A GET is built
    the same with and without a body, so a body that cannot be encoded
    never fails a GET. *)
Theorem newRequest_body (c : Client) method path body :
  (forall req,
     newRequest c method path body = inr req ->
     (method = "GET" -> Request.Body req = None) /\
     (method <> "GET" -> body = None -> Request.Body req = Some []) /\
     (method <> "GET" -> forall b, body = Some b ->
      json_Encode b = inr (default [] (Request.Body req)) /\ Request.Body req <> None)) /\
  newRequest c "GET" path body = newRequest c "GET" path None /\
  (forall b err,
     method <> "GET" -> body = Some b -> json_Encode b = inl err ->
     forall u, url_Parse (baseURL c) path = inr u ->
     newRequest c method path body = inl err).
Proof.
  split; [|split].
  - intros req. unfold newRequest, http_NewRequest, http_MethodGet.
    destruct (url_Parse (baseURL c) path) as [err|u]; [discriminate|].
    assert (Hb : forall hdrs r0,
               Request.Body (map_fold (fun k v req => Request.Header_Set req k v) r0 hdrs) =
               Request.Body r0).
    { intros hdrs r0.
      apply (map_fold_weak_ind (fun r' (_ : gmap string string) =>
                                  Request.Body r' = Request.Body r0)); [reflexivity|].
      intros i x m r' _ IH. exact IH. }
    destruct (String.eqb_spec method "GET") as [->|Hne].
    + destruct (http_NewRequest_err "GET" u); [discriminate|].
      intros E. injection E as <-. rewrite Hb. simpl.
      split; [reflexivity | split; intros Hm; now contradiction Hm].
    + destruct body as [b|].
      * destruct (json_Encode b) as [err|buf] eqn:Eb; [discriminate|].
        destruct (http_NewRequest_err method u); [discriminate|].
        intros E. injection E as <-. rewrite Hb. simpl.
        split; [intros Hm; now contradiction Hne|].
        split; [discriminate|]. intros _ b' E'. injection E' as <-.
        split; [exact Eb | discriminate].
      * destruct (http_NewRequest_err method u); [discriminate|].
        intros E. injection E as <-. rewrite Hb. simpl.
        split; [intros Hm; now contradiction Hne|].
        split; [reflexivity | discriminate].
  - reflexivity.
  - intros b err Hne -> Eb u Hu. unfold newRequest, http_MethodGet. rewrite Hu.
    apply String.eqb_neq in Hne. rewrite Hne, Eb. reflexivity.
Qed.

End RequestBuilding.

(** ** Properties of client construction *)

Section Construction.
Import bitbucket props.
Context {W : Type} `{Platform W} `{Host}.

(** X3.  [createTransport] writes nothing exactly when no CA file was asked
    for (a nil or empty path) or the file is there, was read without error
    and gave at least one certificate.  With no path, an empty path or a
    missing file the pool is the system pool (a new one where there is
    none); otherwise it is that pool after appending whatever the read
    returned, also when the read failed. *)
Theorem createTransport_degrades (caCertPath : option string) :
  (snd (createTransport caCertPath) = [] <->
   caCertPath = None \/ caCertPath = Some "" \/
   exists path,
     caCertPath = Some path /\ path <> "" /\
     os_Stat_IsNotExist path = false /\
     snd (os_ReadFile path) = None /\
     snd (CertPool_AppendCertsFromPEM basePool (fst (os_ReadFile path))) = true) /\
  (caCertPath = None \/ caCertPath = Some "" \/
   (exists path, caCertPath = Some path /\ os_Stat_IsNotExist path = true) ->
   TLSClientConfig_RootCAs (fst (createTransport caCertPath)) = basePool) /\
  (forall path,
     caCertPath = Some path -> path <> "" -> os_Stat_IsNotExist path = false ->
     TLSClientConfig_RootCAs (fst (createTransport caCertPath)) =
     fst (CertPool_AppendCertsFromPEM basePool (fst (os_ReadFile path)))).
Proof.
  unfold createTransport. fold basePool.
  destruct caCertPath as [path|].
  2:{ split; [split; [now left | reflexivity] | split; [reflexivity | discriminate]]. }
  destruct (String.eqb_spec path "") as [->|Hne].
  { split; [split; [intros _; right; now left | reflexivity] |].
    split; [reflexivity|]. intros path E Hp. now injection E as <-. }
  destruct (os_Stat_IsNotExist path) eqn:Hs; simpl.
  - split; [split|split].
    + discriminate.
    + intros [E|[E|[p [E [_ [Hp _]]]]]]; try discriminate; try congruence.
    + reflexivity.
    + intros p E _ Hp. injection E as <-. congruence.
  - destruct (os_ReadFile path) as [certs err] eqn:Hr.
    destruct (CertPool_AppendCertsFromPEM basePool certs) as [pool ok] eqn:Ha.
    split; [split|split].
    + intros Hw. right. right. exists path. rewrite Hr. simpl. rewrite Ha. simpl.
      destruct err; [discriminate|]. destruct ok; [|discriminate].
      repeat split; assumption.
    + intros [E|[E|[p [E [_ [_ [He Hok]]]]]]]; try discriminate; try congruence.
      injection E as <-. rewrite Hr in He, Hok. simpl in He, Hok. rewrite Ha in Hok.
      simpl in Hok. subst. reflexivity.
    + intros [E|[E|[p [E Hp]]]]; try discriminate; try congruence.
    + intros p E _ _. injection E as <-. rewrite Hr. simpl. now rewrite Ha.
Qed.

Lemma strings_TrimRight_slash (s : string) :
  strings_TrimRight (s +:+ "/") "/" = strings_TrimRight s "/".
Proof.
  induction s as [|c s IH]; [reflexivity|].
  simpl. simpl in IH. now rewrite IH.
Qed.

Lemma append_empty (s : string) : s +:+ "" = s.
Proof.
  induction s as [|c s IH]; [reflexivity|].
  change (String c (s +:+ "") = String c s). now rewrite IH.
Qed.

Lemma append_append (s t u : string) : (s +:+ t) +:+ u = s +:+ t +:+ u.
Proof.
  induction s as [|c s IH]; [reflexivity|].
  change (String c ((s +:+ t) +:+ u) = String c (s +:+ t +:+ u)). now rewrite IH.
Qed.

Lemma strings_TrimRight_slashes (s : string) (k : nat) :
  strings_TrimRight (s +:+ slashes k) "/" = strings_TrimRight s "/".
Proof.
  revert s. induction k as [|k IH]; intros s.
  - simpl. now rewrite append_empty.
  - change (slashes (S k)) with ("/" +:+ slashes k).
    rewrite <- append_append, IH. apply strings_TrimRight_slash.
Qed.

Lemma strings_TrimRight_no_slash (s t : string) :
  strings_TrimRight s "/" <> t +:+ "/".
Proof.
  revert t. induction s as [|c s IH]; intros t E.
  - destruct t; cbv [String.append] in E; discriminate E.
  - cbn [strings_TrimRight] in E. destruct (strings_TrimRight s "/") as [|c' kept].
    + destruct (inCutset c "/") eqn:Ec.
      * destruct t; cbv [String.append] in E; discriminate E.
      * destruct t as [|c2 t]; cbv [String.append] in E.
        -- injection E as Hc. subst c. vm_compute in Ec. discriminate Ec.
        -- injection E as Hc Ht. destruct t; discriminate Ht.
    + destruct t as [|c2 t].
      * cbv [String.append] in E. discriminate E.
      * change (String c (String c' kept) = String c2 (t +:+ "/")) in E.
        injection E as Hc Ht. now apply (IH t).
Qed.

Lemma strings_TrimRight_cons (c : Ascii.ascii) (s cutset : string) :
  strings_TrimRight (String c s) cutset =
  match strings_TrimRight s cutset with
  | EmptyString => if inCutset c cutset then EmptyString else String c EmptyString
  | kept => String c kept
  end.
Proof. reflexivity. Qed.

Lemma strings_TrimRight_twice (s cutset : string) :
  strings_TrimRight (strings_TrimRight s cutset) cutset = strings_TrimRight s cutset.
Proof.
  induction s as [|c s IH]; [reflexivity|].
  rewrite strings_TrimRight_cons.
  destruct (strings_TrimRight s cutset) as [|c' kept] eqn:E.
  - destruct (inCutset c cutset) eqn:Ec; [reflexivity|].
    rewrite strings_TrimRight_cons. simpl. now rewrite Ec.
  - rewrite strings_TrimRight_cons, IH. reflexivity.
Qed.

(** X4.  [NewClient] does not tell a base URL from the same URL followed by
    slashes, and the string it parses is never a URL ending in a slash
    followed by the API prefix: the trimmed URL ends in no slash. *)
Theorem NewClient_trailing_slashes (baseURL base64creds : string)
    (caCertPath : option string) (k : nat) :
  NewClient (baseURL +:+ slashes k) base64creds caCertPath =
  NewClient baseURL base64creds caCertPath /\
  (forall t, strings_TrimRight baseURL "/" <> t +:+ "/") /\
  strings_TrimRight (strings_TrimRight baseURL "/") "/" = strings_TrimRight baseURL "/".
Proof.
  split; [|split].
  - unfold NewClient. now rewrite strings_TrimRight_slashes.
  - apply strings_TrimRight_no_slash.
  - apply strings_TrimRight_twice.
Qed.

(** The outcome of [NewClient], by the steps it goes through. *)
Lemma NewClient_run (baseURL base64creds : string) (caCertPath : option string) (w : W) :
  match net_url_Parse (strings_TrimRight baseURL "/" +:+ "/rest/api/1.0/") with
  | inl err => NewClient baseURL base64creds caCertPath w = ((inl err, []), w)
  | inr pBaseURL =>
    let c := clientFor base64creds pBaseURL in
    match newRequest c "GET" "projects" None with
    | inl err =>
      NewClient baseURL base64creds caCertPath w =
      ((inl (fmt_Errorf_w "error creating bitbucket client: "
               (fmt_Errorf_w "error creating request for getting projects: " err)),
        snd (createTransport caCertPath)), w)
    | inr req =>
      snd (NewClient baseURL base64creds caCertPath w) = snd (http_Client_Do req w) /\
      match exchangeError (fst (http_Client_Do req w)) with
      | None =>
        fst (NewClient baseURL base64creds caCertPath w) =
        (inr c, snd (createTransport caCertPath))
      | Some e =>
        fst (NewClient baseURL base64creds caCertPath w) =
        (inl (fmt_Errorf_w "error creating bitbucket client: "
                (fmt_Errorf_w ("error fetching projects at " +:+ Request.URL req +:+ ": ")
                   e)),
         snd (createTransport caCertPath))
      end
    end
  end.
Proof.
  unfold NewClient, apiPath, clientFor.
  destruct (net_url_Parse _) as [err|pBaseURL]; [reflexivity|].
  destruct (createTransport caCertPath) as [transport written]. simpl.
  unfold ping, do, bind, ret.
  destruct (newRequest _ "GET" "projects" None) as [err|req]; [reflexivity|].
  destruct (http_Client_Do req w) as [[err|res] w0]; simpl.
  - split; reflexivity.
  - destruct (handleResponse res None) as [stored [err|]]; simpl; split; reflexivity.
Qed.

(** X5.  [NewClient] returns a client only after one GET for "projects",
    resolved against the parsed base URL, came back without error.  When
    the base URL does not parse it returns that error, sends nothing and
    writes nothing.  When the GET fails, it returns no client and an error
    of the same classification as the failure of the exchange. *)
Theorem NewClient_pings (baseURL base64creds : string) (caCertPath : option string) (w : W) :
  match net_url_Parse (strings_TrimRight baseURL "/" +:+ "/rest/api/1.0/") with
  | inl err => NewClient baseURL base64creds caCertPath w = ((inl err, []), w)
  | inr pBaseURL =>
    let c := clientFor base64creds pBaseURL in
    match newRequest c "GET" "projects" None with
    | inl err =>
      snd (NewClient baseURL base64creds caCertPath w) = w /\
      exists err', fst (fst (NewClient baseURL base64creds caCertPath w)) = inl err'
    | inr req =>
      Request.Method req = "GET" /\
      url_Parse pBaseURL "projects" = inr (Request.URL req) /\
      snd (NewClient baseURL base64creds caCertPath w) = snd (http_Client_Do req w) /\
      match exchangeError (fst (http_Client_Do req w)) with
      | None => fst (fst (NewClient baseURL base64creds caCertPath w)) = inr c
      | Some e =>
        exists err,
          fst (fst (NewClient baseURL base64creds caCertPath w)) = inl err /\
          Forall (fun target => errors_Is err target = errors_Is e target) classifications
      end
    end
  end.
Proof.
  pose proof (NewClient_run baseURL base64creds caCertPath w) as Hrun.
  destruct (net_url_Parse _) as [err|pBaseURL]; [exact Hrun|].
  cbv zeta in Hrun |- *.
  destruct (newRequest _ "GET" "projects" None) as [err|req] eqn:R.
  - rewrite Hrun. split; [reflexivity | eexists; reflexivity].
  - destruct Hrun as [Hw Hres].
    destruct (newRequest_built _ _ _ _ _ R) as [Hm Hu].
    split; [exact Hm | split; [exact Hu | split; [exact Hw|]]].
    destruct (exchangeError _) as [e|].
    + eexists. rewrite Hres. split; [reflexivity|].
      apply List.Forall_forall. intros target Ht.
      unfold fmt_Errorf_w. now rewrite !errors_Is_wrapError.
    + now rewrite Hres.
Qed.


End Construction.

(** ** Further properties of the resource client *)

Section ResourceClientMore.
Import bitbucket props.
Context {W : Type} `{Platform W}.
Context `{Unmarshaler repositoryJson.t} `{Unmarshaler groupsResponse.t}.

Lemma newRequest_nil_body (c : Client) method path req :
  newRequest c method path None = inr req ->
  Request.Body req = if String.eqb method "GET" then None else Some [].
Proof.
  unfold newRequest, http_NewRequest, http_MethodGet.
  destruct (url_Parse (baseURL c) path) as [err|u]; [discriminate|].
  assert (Hb : forall (hdrs : gmap string string) r0,
             Request.Body (map_fold (fun k v req => Request.Header_Set req k v) r0 hdrs) =
             Request.Body r0).
  { intros hdrs r0.
    apply (map_fold_weak_ind (fun r' (_ : gmap string string) =>
                                Request.Body r' = Request.Body r0)); [reflexivity|].
    intros i x m r' _ IH. exact IH. }
  destruct (String.eqb method "GET");
    (destruct (http_NewRequest_err method u); [discriminate|]);
    intros E; injection E as <-; now rewrite Hb.
Qed.

(** The error of a call made with no target, wrapped with [msg]. *)
Lemma bodyless_exchange (c : Client) req msg w :
  let out := (r <- do c req (@None noTarget) ;;
              match snd r with
              | Some err => ret (Some (fmt_Errorf_w msg err))
              | None => ret None
              end)%go w in
  snd out = snd (http_Client_Do req w) /\
  fst out = match exchangeError (fst (http_Client_Do req w)) with
            | Some e => Some (fmt_Errorf_w msg e)
            | None => None
            end.
Proof.
  unfold do, bind, ret, exchangeError.
  destruct (http_Client_Do req w) as [[err|res] w0]; simpl; [split; reflexivity|].
  destruct (handleResponse res None) as [stored [err|]]; split; reflexivity.
Qed.

(** X8.  [AddGroup] sends one PUT, and [RevokeGroup] one DELETE, to the
    group permissions of the repository, with the group name (and for a
    grant the permission) in the query and an empty body.  Each returns no
    error exactly when the exchange gives none, and otherwise the error of
    the exchange wrapped with a message.  When the request cannot be built,
    nothing is sent. *)
Theorem AddGroup_RevokeGroup_requests service repository group w :
  match newRequest (repositoryService.client service) "PUT"
          (grantPath (Repository.Project repository) (Repository.Name repository)
             (Group.Name group) (Group.Permission group)) None with
  | inl err =>
    repositoryService.AddGroup service repository group w =
    (Some (fmt_Errorf_w "error creating request for adding repository group: " err), w)
  | inr req =>
    Request.Method req = "PUT" /\ Request.Body req = Some [] /\
    snd (repositoryService.AddGroup service repository group w) =
      snd (http_Client_Do req w) /\
    fst (repositoryService.AddGroup service repository group w) =
      match exchangeError (fst (http_Client_Do req w)) with
      | Some e => Some (fmt_Errorf_w "error adding repository group: " e)
      | None => None
      end
  end /\
  match newRequest (repositoryService.client service) "DELETE"
          (revokePath (Repository.Project repository) (Repository.Name repository)
             (Group.Name group)) None with
  | inl err =>
    repositoryService.RevokeGroup service repository group w =
    (Some (fmt_Errorf_w "error creating request for revoking repository group: " err), w)
  | inr req =>
    Request.Method req = "DELETE" /\ Request.Body req = Some [] /\
    snd (repositoryService.RevokeGroup service repository group w) =
      snd (http_Client_Do req w) /\
    fst (repositoryService.RevokeGroup service repository group w) =
      match exchangeError (fst (http_Client_Do req w)) with
      | Some e => Some (fmt_Errorf_w "error revoking repository group: " e)
      | None => None
      end
  end.
Proof.
  split.
  - unfold repositoryService.AddGroup, grantPath, http_MethodPut.
    destruct (newRequest _ _ _ _) as [err|req] eqn:R; [reflexivity|].
    split; [apply (newRequest_built _ _ _ _ _ R)|].
    split; [exact (newRequest_nil_body _ _ _ _ R)|].
    apply bodyless_exchange.
  - unfold repositoryService.RevokeGroup, revokePath, http_MethodDelete.
    destruct (newRequest _ _ _ _) as [err|req] eqn:R; [reflexivity|].
    split; [apply (newRequest_built _ _ _ _ _ R)|].
    split; [exact (newRequest_nil_body _ _ _ _ R)|].
    apply bodyless_exchange.
Qed.

(** What a call that was given a target and returned no error left in
    it. *)
Lemma do_decoded {T} `{Unmarshaler T} (c : Client) req (t : T) w stored w' :
  do c req (Some t) w = ((stored, None), w') ->
  exists res out,
    http_Client_Do req w = (inr res, w') /\
    io_ReadAll (Response.Body res) = (out, None) /\
    (Response.StatusCode res < 400)%Z /\
    after t stored = (if (Response.StatusCode res =? 204)%Z then t
                      else fst (json_Unmarshal out t)).
Proof.
  unfold do, bind, ret.
  destruct (http_Client_Do req w) as [[err|res] w0]; [discriminate|].
  intros E. injection E as Hh <-.
  destruct (handleResponse_success _ _ _ Hh) as [out [Hr [Hlt Hcase]]].
  exists res, out. split; [reflexivity | split; [exact Hr | split; [exact Hlt|]]].
  destruct Hcase as [[E ->]|[E [Hu _]]].
  - rewrite E. reflexivity.
  - apply Z.eqb_neq in E. rewrite E, Hu. reflexivity.
Qed.

(** X9.  When [Get] returns a repository, it sent one GET for the
    repository, and the result holds the id, name, project key and
    description the body decoded to (of the zero record when the status
    was 204, for which nothing is decoded).  Its [Public] is false whatever
    the server sent. *)
Theorem Get_success service repository w r w' :
  repositoryService.Get service repository w = (inr r, w') ->
  exists req res out decoded,
    newRequest (repositoryService.client service) "GET"
      (repositoryPath (Repository.Project repository) (Repository.Name repository))
      None = inr req /\
    Request.Method req = "GET" /\ Request.Body req = None /\
    http_Client_Do req w = (inr res, w') /\
    io_ReadAll (Response.Body res) = (out, None) /\
    decoded = (if (Response.StatusCode res =? 204)%Z then repositoryJson.zero
               else fst (json_Unmarshal out repositoryJson.zero)) /\
    r = Repository.mk (repositoryJson.ID decoded) (repositoryJson.Name decoded) false
          (repositoryJson.Project_Key decoded) (repositoryJson.Description decoded) /\
    (Response.StatusCode res = 204%Z -> r = Repository.mk 0 "" false "" "").
Proof.
  unfold repositoryService.Get, repositoryPath, http_MethodGet, bind, ret.
  destruct (newRequest _ _ _ _) as [err|req] eqn:R; [discriminate|].
  destruct (do _ req (Some repositoryJson.zero) w) as [[stored [err|]] w0] eqn:D;
    [discriminate|].
  intros E. injection E as <- <-.
  destruct (do_decoded _ _ _ _ _ _ D) as [res [out [Hd [Hr [_ Ha]]]]].
  exists req, res, out, (after repositoryJson.zero stored).
  split; [reflexivity|].
  split; [apply (newRequest_built _ _ _ _ _ R)|].
  split; [exact (newRequest_nil_body _ _ _ _ R)|].
  split; [exact Hd | split; [exact Hr | split; [exact Ha | split; [reflexivity|]]]].
  intros E. rewrite Ha. apply Z.eqb_eq in E. rewrite E. reflexivity.
Qed.

(** X10.  When [Create] or [Update] returns a repository, it sent one
    request with the JSON encoding of the record it was given as body: a
    POST to the repositories of the project for [Create], a PUT to the
    repository for [Update].  The result is read off the decoded body as
    for [Get], so its [Public] is false even when the record sent had it
    true. *)
Theorem Create_Update_success service repository w r w' :
  (repositoryService.Create service repository w = (inr r, w') ->
   exists req res out decoded,
     newRequest (repositoryService.client service) "POST"
       (reposPath (Repository.Project repository)) (Some repository) = inr req /\
     Request.Method req = "POST" /\
     json_Encode repository = inr (default [] (Request.Body req)) /\
     http_Client_Do req w = (inr res, w') /\
     io_ReadAll (Response.Body res) = (out, None) /\
     decoded = (if (Response.StatusCode res =? 204)%Z then repositoryJson.zero
                else fst (json_Unmarshal out repositoryJson.zero)) /\
     r = repositoryJson.toRepository decoded /\
     Repository.Public r = false) /\
  (repositoryService.Update service repository w = (inr r, w') ->
   exists req res out decoded,
     newRequest (repositoryService.client service) "PUT"
       (repositoryPath (Repository.Project repository) (Repository.Name repository))
       (Some repository) = inr req /\
     Request.Method req = "PUT" /\
     json_Encode repository = inr (default [] (Request.Body req)) /\
     http_Client_Do req w = (inr res, w') /\
     io_ReadAll (Response.Body res) = (out, None) /\
     decoded = (if (Response.StatusCode res =? 204)%Z then repositoryJson.zero
                else fst (json_Unmarshal out repositoryJson.zero)) /\
     r = repositoryJson.toRepository decoded /\
     Repository.Public r = false).
Proof.
  assert (Hbody : forall c method path req,
            method <> "GET" ->
            newRequest c method path (Some repository) = inr req ->
            json_Encode repository = inr (default [] (Request.Body req))).
  { intros c method path req Hne. unfold newRequest, http_NewRequest, http_MethodGet.
    destruct (url_Parse (baseURL c) path) as [err|u]; [discriminate|].
    apply String.eqb_neq in Hne. rewrite Hne.
    destruct (json_Encode repository) as [err|buf]; [discriminate|].
    destruct (http_NewRequest_err method u); [discriminate|].
    intros E. injection E as <-.
    assert (Hb : forall (hdrs : gmap string string) r0,
               Request.Body (map_fold (fun k v req => Request.Header_Set req k v) r0 hdrs) =
               Request.Body r0).
    { intros hdrs r0.
      apply (map_fold_weak_ind (fun r' (_ : gmap string string) =>
                                  Request.Body r' = Request.Body r0)); [reflexivity|].
      intros i x m r' _ IH. exact IH. }
    now rewrite Hb. }
  split.
  - unfold repositoryService.Create, reposPath, http_MethodPost, bind, ret.
    destruct (newRequest _ _ _ _) as [err|req] eqn:R; [discriminate|].
    destruct (do _ req (Some repositoryJson.zero) w) as [[stored [err|]] w0] eqn:D;
      [discriminate|].
    intros E. injection E as <- <-.
    destruct (do_decoded _ _ _ _ _ _ D) as [res [out [Hd [Hr [_ Ha]]]]].
    exists req, res, out, (after repositoryJson.zero stored).
    split; [reflexivity|].
    split; [apply (newRequest_built _ _ _ _ _ R)|].
    assert (Hp : "POST" <> "GET") by discriminate.
    split; [apply (Hbody _ _ _ _ Hp R)|].
    split; [exact Hd | split; [exact Hr | split; [exact Ha | split; reflexivity]]].
  - unfold repositoryService.Update, repositoryPath, http_MethodPut, bind, ret.
    destruct (newRequest _ _ _ _) as [err|req] eqn:R; [discriminate|].
    destruct (do _ req (Some repositoryJson.zero) w) as [[stored [err|]] w0] eqn:D;
      [discriminate|].
    intros E. injection E as <- <-.
    destruct (do_decoded _ _ _ _ _ _ D) as [res [out [Hd [Hr [_ Ha]]]]].
    exists req, res, out, (after repositoryJson.zero stored).
    split; [reflexivity|].
    split; [apply (newRequest_built _ _ _ _ _ R)|].
    assert (Hp : "PUT" <> "GET") by discriminate.
    split; [apply (Hbody _ _ _ _ Hp R)|].
    split; [exact Hd | split; [exact Hr | split; [exact Ha | split; reflexivity]]].
Qed.

End ResourceClientMore.

(** ** Status codes, from the wire to the controller *)

Section StatusCodes.
Import bitbucket managed resource repository props.
Context `{Crossplane} {W : Type} `{Platform W}.
Context `{Unmarshaler repositoryJson.t} `{Unmarshaler groupsResponse.t}.






End StatusCodes.

(** ** Further properties of the controller *)

Section ControllerMore.
Import bitbucket managed resource repository trace props.
Context `{Crossplane} {W : Type}.

(** X13.  [Observe] only reads: whatever the resource and the service, it
    makes at most two calls, and each is a [Get] or a [GetGroups]. *)
Theorem Observe_only_reads (svc : RepositoryService.t W) mg w :
  Forall (fun ev => reads (call_of ev) = true)
    (events (Observe (recorded svc) mg (w, []))) /\
  length (events (Observe (recorded svc) mg (w, []))) <= 2.
Proof.
  destruct mg as [cr|]; [|split; [constructor | simpl; lia]].
  unfold events, Observe, bind. simpl.
  destruct (RepositoryService.Get svc (repositoryRef cr) w) as [[e|repository] w1] eqn:E;
    unfold repositoryRef, desired in E; rewrite (record_run _ _ _ _ _ _ E); simpl.
  - destruct (errors_Is e ErrNotFound); simpl; (split; [repeat constructor | lia]).
  - destruct (negb _); simpl; [split; [repeat constructor | lia]|].
    destruct (RepositoryService.GetGroups svc repository w1) as [[groups err] w2] eqn:G.
    rewrite (record_run _ _ _ _ _ _ G). simpl.
    destruct (negb _); simpl; (split; [repeat constructor | lia]).
Qed.

(** X14.  What [Observe] decides, by what the fetch returned.  After a
    failed fetch the resource is reported missing and left as it was, with
    no error exactly when the failure is [ErrNotFound].  After a fetch
    that succeeded the resource exists, no error is returned, the remote
    id and the Available condition are written to the resource, and it is
    reported up to date exactly when the descriptions agree and
    [groupsEqual] accepts the listed groups; connection details are set
    exactly then. *)
Theorem Observe_decision (svc : RepositoryService.t W) cr w :
  let out := Observe (direct svc) (aRepository cr) w in
  let obs := fst (fst (fst out)) in
  let err := snd (fst (fst out)) in
  match RepositoryService.Get svc (repositoryRef cr) w with
  | (inl e, w1) =>
    ExternalObservation.ResourceExists obs = false /\
    ExternalObservation.ResourceUpToDate obs = false /\
    snd (fst out) = aRepository cr /\
    snd out = w1 /\
    (err = None <-> errors_Is e ErrNotFound = true)
  | (inr repository, w1) =>
    ExternalObservation.ResourceExists obs = true /\
    err = None /\
    snd (fst out) = aRepository (observed cr repository) /\
    (ExternalObservation.ResourceUpToDate obs = true <->
     Repository.Description repository =
       v1alpha1.RepositoryParameters.Description (desired cr) /\
     groupsEqual (v1alpha1.RepositoryParameters.Groups (desired cr))
       (fst (fst (RepositoryService.GetGroups svc repository w1))) = true) /\
    (ExternalObservation.ConnectionDetails obs <> None <->
     ExternalObservation.ResourceUpToDate obs = true)
  end.
Proof.
  unfold repositoryRef, observed, desired, Observe, bind. simpl.
  destruct (RepositoryService.Get svc _ w) as [[e|repository] w1]; simpl.
  - destruct (errors_Is e ErrNotFound); simpl;
      (split; [reflexivity | split; [reflexivity | split; [reflexivity |
        split; [reflexivity | split; congruence]]]]).
  - destruct (String.eqb_spec (Repository.Description repository)
                (v1alpha1.RepositoryParameters.Description
                   (v1alpha1.RepositorySpec.ForProvider (v1alpha1.Repository.Spec cr))))
      as [Ed|Ed]; simpl.
    + destruct (RepositoryService.GetGroups svc repository w1) as [[groups gerr] w2]. simpl.
      destruct (groupsEqual _ groups); simpl;
        (split; [reflexivity | split; [reflexivity | split; [reflexivity |]]]).
      * split; [split; [intros _; split; [exact Ed | reflexivity] | reflexivity]|].
        split; [reflexivity | discriminate].
      * split; [split; [discriminate | intros [_ E]; discriminate E]|].
        split; [intros Hn; now contradiction Hn | discriminate].
    + split; [reflexivity | split; [reflexivity | split; [reflexivity |]]].
      split; [split; [discriminate | intros [E _]; now contradiction Ed]|].
      split; [intros Hn; now contradiction Hn | discriminate].
Qed.

(** X15.  Given a managed resource that is not a Repository, each of the
    four operations returns the error "managed resource is not a Repository
    custom resource", makes no call and leaves the resource as it was. *)
Theorem not_a_Repository (svc : RepositoryService.t W) w :
  Observe (recorded svc) anotherKind (w, []) =
    (((ExternalObservation.zero, Some (errorString errNotRepository)), anotherKind), (w, [])) /\
  Create (recorded svc) anotherKind (w, []) =
    (((ExternalCreation.zero, Some (errorString errNotRepository)), anotherKind), (w, [])) /\
  Update (recorded svc) anotherKind (w, []) =
    (((ExternalUpdate.zero, Some (errorString errNotRepository)), anotherKind), (w, [])) /\
  Delete (recorded svc) anotherKind (w, []) =
    ((Some (errorString errNotRepository), anotherKind), (w, [])).
Proof. repeat split. Qed.

(** X16.  [Delete] makes one call, the deletion of the repository addressed
    by name and project, and returns the error of that call unchanged.  It
    revokes no group, and it marks the resource as Deleting whether the
    call succeeds or not. *)
Theorem Delete_one_call (svc : RepositoryService.t W) cr w :
  let out := Delete (recorded svc) (aRepository cr) (w, []) in
  let answer := RepositoryService.Delete svc (repositoryRef cr) w in
  events out = [EvDelete (repositoryRef cr) (fst answer)] /\
  fst (returned out) = fst answer /\
  snd (returned out) = aRepository (v1alpha1.Repository.SetConditions cr Deleting) /\
  world out = snd answer.
Proof.
  unfold events, returned, world, Delete, bind. simpl.
  destruct (RepositoryService.Delete svc (repositoryRef cr) w) as [err w1] eqn:E.
  unfold repositoryRef, desired in *. rewrite (record_run _ _ _ _ _ _ E). repeat split.
Qed.

(** X17.  What [Create] leaves in the managed resource: the Creating
    condition always, and the external name exactly when it returns no
    error, in which case the name is the one of the repository the server
    returned, not the one asked for.  Connection details are returned
    exactly when there is no error. *)
Theorem Create_external_name (c : external W) cr w :
  let out := Create c (aRepository cr) w in
  let creating := v1alpha1.Repository.SetConditions cr Creating in
  match snd (fst (fst out)) with
  | Some _ =>
    snd (fst out) = aRepository creating /\
    fst (fst (fst out)) = ExternalCreation.zero
  | None =>
    exists repository w1,
      RepositoryService.Create (Repositories (service c)) (repoToCreate cr) w =
        (inr repository, w1) /\
      snd (fst out) =
        aRepository (v1alpha1.Repository.SetExternalName creating
                       (Repository.Name repository)) /\
      fst (fst (fst out)) = ExternalCreation.mk (Some ∅)
  end.
Proof.
  unfold Create, bind. simpl.
  change (repoToCreate (v1alpha1.Repository.SetConditions cr Creating))
    with (repoToCreate cr).
  destruct (RepositoryService.Create _ (repoToCreate cr) w) as [[e|repository] w1];
    simpl; [split; reflexivity|].
  destruct (Create_loop c repository _ w1) as [[e|] w2]; simpl; [split; reflexivity|].
  exists repository, w1. repeat split.
Qed.

(** X18.  [Update] never writes to the managed resource: it comes back as
    it went in, whatever the calls return. *)
Theorem Update_leaves_resource (c : external W) mg w :
  snd (fst (Update c mg w)) = mg.
Proof.
  destruct mg as [cr|]; [|reflexivity].
  unfold Update, bind. simpl.
  destruct (RepositoryService.Update _ _ w) as [[e|repo] w1]; simpl; [reflexivity|].
  destruct (RepositoryService.GetGroups _ repo w1) as [[groups [e|]] w2]; simpl;
    [reflexivity|].
  destruct (Update_loop c repo _ w2) as [[e|] w3]; simpl; [reflexivity|].
  destruct (Update_delete_loop c repo _ _ w3) as [[e|] w4]; reflexivity.
Qed.

End ControllerMore.

Section UpdateEdges.
Import bitbucket managed resource repository trace props.
Context `{Crossplane} {W : Type}.

Lemma prunes_none_desired repo groups :
  prunes repo [] groups = map (CallRevokeGroup repo) groups.
Proof.
  unfold prunes. f_equal. induction groups as [|g groups IH]; [reflexivity|].
  simpl. now rewrite IH.
Qed.

Lemma prunes_all_desired repo Groups groups :
  (forall g, In g groups -> In (Group.Name g) (map v1alpha1.AdGroup.Name Groups)) ->
  prunes repo Groups groups = [].
Proof.
  unfold prunes. induction groups as [|g groups IH]; intros Hall; [reflexivity|].
  simpl. unfold unknown at 1.
  destruct (in_dec _ _ _) as [Hin|Hn].
  - apply IH. intros g' Hg'. apply Hall. now right.
  - exfalso. apply Hn, Hall. now left.
Qed.

(** X19.  An [Update] that returns no error has made, after the update and
    the listing, exactly one [AddGroup] per desired grant and then one
    [RevokeGroup] per remote grant of an undesired name.  So with no
    desired grant it revokes every remote grant, and when every remote
    group name is desired it revokes nothing and still grants every desired
    grant again, also those the remote list already holds. *)
Theorem Update_edge_cases (svc : RepositoryService.t W) cr w repo w1 groups w2 :
  RepositoryService.Update svc (repoToUpdate cr) w = (inr repo, w1) ->
  RepositoryService.GetGroups svc repo w1 = ((groups, None), w2) ->
  snd (fst (returned (Update (recorded svc) (aRepository cr) (w, [])))) = None ->
  let calls := map call_of (events (Update (recorded svc) (aRepository cr) (w, []))) in
  let Groups := elems (v1alpha1.RepositoryParameters.Groups (desired cr)) in
  calls = CallUpdate (repoToUpdate cr) :: CallGetGroups repo ::
          upserts repo Groups ++ prunes repo Groups (elems groups) /\
  (Groups = [] ->
   calls = CallUpdate (repoToUpdate cr) :: CallGetGroups repo ::
           map (CallRevokeGroup repo) (elems groups)) /\
  ((forall g, In g (elems groups) ->
              In (Group.Name g) (map v1alpha1.AdGroup.Name Groups)) ->
   calls = CallUpdate (repoToUpdate cr) :: CallGetGroups repo :: upserts repo Groups).
Proof.
  intros HU HG Herr calls Groups.
  pose proof (Update_run svc cr w) as Hrun. cbv zeta in Hrun.
  rewrite HU, HG, Herr in Hrun. destruct Hrun as [evs [Hev [remaining [Hp [-> _]]]]].
  rewrite app_nil_r in Hp. fold Groups in Hp.
  assert (Hc : calls = CallUpdate (repoToUpdate cr) :: CallGetGroups repo ::
                       upserts repo Groups ++ prunes repo Groups (elems groups)).
  { unfold calls. rewrite Hev. simpl. now rewrite <- Hp. }
  split; [exact Hc | split].
  - intros HG0. rewrite Hc, HG0. simpl. now rewrite prunes_none_desired.
  - intros Hall. rewrite Hc, (prunes_all_desired _ _ _ Hall). now rewrite app_nil_r.
Qed.

End UpdateEdges.

Section GroupsEqualMore.
Import bitbucket repository props.

(** X20.  [groupsEqual] accepts every remote list that holds exactly the
    grants of the desired list, in any order, also when the desired list
    repeats a grant; and it does not tell a nil list from an empty one: a
    nil desired list is matched by the remote lists without elements, and
    by no other. *)
Theorem groupsEqual_own_grants (crGroups : slice v1alpha1.AdGroup.t) :
  (forall groups,
     Permutation (map grantOf (elems crGroups)) (elems groups) ->
     groupsEqual crGroups groups = true) /\
  (forall groups,
     groupsEqual nilSlice groups = groupsEqual (sliceOf []) groups /\
     (groupsEqual nilSlice groups = true <-> elems groups = [])).
Proof.
  split.
  - intros groups Hp. apply groupsEqual_true_iff. split.
    + unfold len. rewrite <- (Permutation_length Hp). now rewrite length_map.
    + unfold desiredGrants, remoteGrants. intros p Hin.
      apply (Permutation_in _ (Permutation_map
               (fun g => (Group.Name g, Group.Permission g)) Hp)).
      rewrite map_map. exact Hin.
  - intros groups. split; [reflexivity|].
    unfold groupsEqual, len. simpl. destruct (elems groups); simpl.
    + split; reflexivity.
    + split; discriminate.
Qed.

End GroupsEqualMore.

Section FactoryProperties.
Import bitbucket repository props.
Context {W : Type} `{Platform W}.
Context `{Unmarshaler repositoryJson.t} `{Unmarshaler groupsResponse.t}.

(** X21.  The service factory of the controller never returns an error:
    when [NewClient] fails the process exits with that error, and otherwise
    the factory returns the service over the new client with a nil error.
    It reaches the server only through [NewClient]. *)
Theorem bitbucketService_never_errs
    (bitbucket_NewClient : string -> string -> M W (error + Client))
    (baseURL : string) (creds : list Byte.byte) (w : W) :
  match fst (bitbucketService bitbucket_NewClient baseURL creds w) with
  | Exit err =>
    fst (bitbucket_NewClient baseURL (string_of_list_byte creds) w) = inl err
  | Return (service, err) =>
    err = None /\
    exists client,
      fst (bitbucket_NewClient baseURL (string_of_list_byte creds) w) = inr client /\
      service = NewService client
  end /\
  snd (bitbucketService bitbucket_NewClient baseURL creds w) =
  snd (bitbucket_NewClient baseURL (string_of_list_byte creds) w).
Proof.
  unfold bitbucketService, bitbucket_NewService, bind, ret.
  destruct (bitbucket_NewClient baseURL (string_of_list_byte creds) w) as [[err|client] w1];
    simpl; split; try reflexivity.
  split; [reflexivity|]. exists client. split; reflexivity.
Qed.

End FactoryProperties.

(** ** The further properties at concrete inputs *)

Section MoreWitnesses.
Import bitbucket managed resource repository trace props.
#[local] Existing Instance fake.platform.
#[local] Existing Instance fake.host.
#[local] Existing Instance fake.unmarshalRepository.
#[local] Existing Instance fake.unmarshalGroups.





Lemma Get_success_witness :
  exists r w',
    repositoryService.Get (repositoryService.mk fake.client)
      (Repository.mk 0 "svc" false "CORE" "")
      (example.wire_of (example.readable 200 "svc")) = (inr r, w') /\
    exists req res out decoded,
      newRequest fake.client "GET" (repositoryPath "CORE" "svc") None = inr req /\
      Request.Method req = "GET" /\ Request.Body req = None /\
      http_Client_Do req (example.wire_of (example.readable 200 "svc")) = (inr res, w') /\
      io_ReadAll (Response.Body res) = (out, None) /\
      decoded = (if (Response.StatusCode res =? 204)%Z then repositoryJson.zero
                 else fst (json_Unmarshal out repositoryJson.zero)) /\
      r = Repository.mk (repositoryJson.ID decoded) (repositoryJson.Name decoded) false
            (repositoryJson.Project_Key decoded) (repositoryJson.Description decoded) /\
      (Response.StatusCode res = 204%Z -> r = Repository.mk 0 "" false "" "").
Proof.
  destruct (repositoryService.Get (repositoryService.mk fake.client)
              (Repository.mk 0 "svc" false "CORE" "")
              (example.wire_of (example.readable 200 "svc")))
    as [[err|r] w'] eqn:E; [vm_compute in E; discriminate E|].
  exists r, w'. split; [reflexivity|].
  exact (Get_success (repositoryService.mk fake.client)
           (Repository.mk 0 "svc" false "CORE" "") _ r w' E).
Defined.



Lemma Update_edge_cases_witness :
  let cr := example.svc_with nilSlice in
  let repo := Repository.mk 1 "svc" false "CORE" "x" in
  RepositoryService.Update fake.server (repoToUpdate cr) example.granted =
    (inr repo, example.granted) /\
  RepositoryService.GetGroups fake.server repo example.granted =
    ((sliceOf [example.remote_A_read; example.remote_B_write], None), example.granted) /\
  snd (fst (returned (Update (recorded fake.server) (aRepository cr)
                        (example.granted, [])))) = None /\
  map call_of (events (Update (recorded fake.server) (aRepository cr)
                         (example.granted, []))) =
  [CallUpdate (repoToUpdate cr); CallGetGroups repo;
   CallRevokeGroup repo example.remote_A_read;
   CallRevokeGroup repo example.remote_B_write].
Proof.
  split; [reflexivity | split; [reflexivity | split; [reflexivity|]]].
  exact (proj1 (proj2 (Update_edge_cases fake.server (example.svc_with nilSlice)
                         example.granted (Repository.mk 1 "svc" false "CORE" "x")
                         example.granted
                         (sliceOf [example.remote_A_read; example.remote_B_write])
                         example.granted eq_refl eq_refl eq_refl)) eq_refl).
Defined.

End MoreWitnesses.
